(** * ksp-telemetry: a shallow embedding of [ksp-telemetry.py]

    The script reads a Mechjeb telemetry CSV, turns the rows into named
    columns of floats, draws four (or, with [--verbose], six) charts and
    saves and/or shows the figure.

    Data is modelled as the script has it: samples are IEEE binary64
    numbers (Rocq's primitive [float]), the telemetry table is a
    dictionary from column names to sequences (a [gmap string (list float)]),
    and the observable behaviour of a run is the ordered list of calls the
    script makes on the outside world (prints, pyplot calls, file closes)
    together with the way the process ends. *)

From Stdlib Require Import ZArith Floats Lia.
From stdpp Require Import gmap strings list.

Set Warnings "-inexact-float".

(** ** Exceptions, results and the trace of a run *)

(** The Python exceptions the script can meet. *)
Inductive exn := StopIteration | ValueError | IndexError | KeyError.

#[global] Instance exn_eq_dec : EqDecision exn.
Proof. solve_decision. Defined.

(** How a computation ends: normally with a value, by an exception that is
    propagating, or by [sys.exit(code)]. *)
Inductive result (A : Type) :=
  | Ok (a : A)
  | Raised (e : exn)
  | Exited (code : Z).
Arguments Ok {A} a.
Arguments Raised {A} e.
Arguments Exited {A} code.

Inductive stream := Stdout | Stderr.

(** One observable call of the script.  Pyplot calls carry the arguments
    the script passes. *)
Inductive event :=
  | Print (s : stream) (msg : string)        (* print(msg, file=s) *)
  | PrintUsage (s : stream)                  (* parser.print_usage(s) *)
  | CloseIn                                  (* args.telemetry.close() *)
  | Figure (width height : Z)                (* plt.figure(figsize=...) *)
  | Suptitle (t : string) (fontsize : Z)     (* fig.suptitle(t, fontsize=...) *)
  | Subplot (nrows ncols index : Z)          (* plt.subplot(nrows, ncols, index) *)
  | Plot (xs ys : list float) (label : option string)
  | Title (t : string)
  | Xlabel (t : string)
  | Ylabel (t : string)
  | Legend (loc : string)
  | Grid
  | SubplotsAdjust (hspace wspace : float)
  | Savefig (target : string)                (* plt.savefig(args.out) *)
  | CloseOut (target : string)               (* args.out.close() *)
  | Show.                                    (* plt.show() *)

(** A script-level computation: the events it performed, in order, and how
    it ended. *)
Definition run (A : Type) : Type := list event * result A.

Definition ret {A} (a : A) : run A := ([], Ok a).

Definition bind {A B} (m : run A) (k : A -> run B) : run B :=
  match m with
  | (t, Ok a) => let '(t', r) := k a in (t ++ t', r)
  | (t, Raised e) => (t, Raised e)
  | (t, Exited c) => (t, Exited c)
  end.

Notation "x <- m ;; k" := (bind m (fun x => k))
  (at level 100, m at next level, right associativity).
Notation "m ;;; k" := (bind m (fun _ => k))
  (at level 100, right associativity).

Definition emit (ev : event) : run unit := ([ev], Ok tt).
Definition sys_exit {A} (code : Z) : run A := ([], Exited code).
Definition print (s : stream) (msg : string) : run unit := emit (Print s msg).

(** A computation without events, run inside the script. *)
Definition lift {A} (r : result A) : run A := ([], r).

(** [try: body except KeyError: handler].  [sys.exit] and the other
    exceptions pass through. *)
Definition try_except_KeyError {A} (body handler : run A) : run A :=
  match body with
  | (t, Raised KeyError) => let '(t', r) := handler in (t ++ t', r)
  | other => other
  end.

(** The status the operating system sees: the argument of [sys.exit], and
    1 when the interpreter dies of an uncaught exception. *)
Definition exit_status {A} (r : result A) : Z :=
  match r with
  | Ok _ => 0
  | Raised _ => 1
  | Exited c => c
  end.

(** Evaluation of pure code that can raise. *)
Definition rbind {A B} (r : result A) (k : A -> result B) : result B :=
  match r with
  | Ok a => k a
  | Raised e => Raised e
  | Exited c => Exited c
  end.

(** A comprehension [f(x) for x in l], stopping at the first exception. *)
Fixpoint traverse {A B} (f : A -> result B) (l : list A) : result (list B) :=
  match l with
  | [] => Ok []
  | x :: l' => rbind (f x) (fun y => rbind (traverse f l') (fun ys => Ok (y :: ys)))
  end.

(** [enumerate(l)], counting from [start]. *)
Fixpoint enumerate_from {A} (start : nat) (l : list A) : list (nat * A) :=
  match l with
  | [] => []
  | x :: l' => (start, x) :: enumerate_from (S start) l'
  end.
Definition enumerate {A} (l : list A) : list (nat * A) := enumerate_from 0 l.

(** [seq[i]] for a non-negative [i]: IndexError out of range. *)
Definition index {A} (l : list A) (i : nat) : result A :=
  match l !! i with
  | Some x => Ok x
  | None => Raised IndexError
  end.

(** ** Command line *)

(** The namespace returned by [parser.parse_args()].  [argparse.FileType]
    has already opened the files: [telemetry] is the input stream, given by
    its name and by the rows [csv.reader] yields from it; [out], when
    [--out] was passed, is the output stream, given by its name. *)
Record Args := {
  telemetry_name : string;
  telemetry_rows : list (list string);
  title : option string;
  verbose : bool;
  out : option string;
  no_view : bool;
}.

Definition version : string := "1.2.1".

(** The double-quote character of the two messages that quote a file name. *)
Definition dquote : string := String (Ascii.ascii_of_nat 34) EmptyString.

(** Truth value of [args.title]: [None] and the empty string are false. *)
Definition title_truthy (t : option string) : bool :=
  match t with
  | Some (String _ _) => true
  | _ => false
  end.

(** Truth value of [args.out]: a file object is true, [None] is false. *)
Definition out_truthy (o : option string) : bool :=
  match o with
  | Some _ => true
  | None => false
  end.

(** ** Derived series *)

Definition to_km (xs : list float) : list float :=
  (fun x => x / 1000)%float <$> xs.

(** [telemetry_data[key]]: KeyError when the table has no such column. *)
Definition item (telemetry_data : gmap string (list float)) (key : string)
    : result (list float) :=
  match telemetry_data !! key with
  | Some c => Ok c
  | None => Raised KeyError
  end.

(** [[dv_exp - telemetry_data["SpeedOrbital"][i] + tan_vel
      for i, dv_exp in enumerate(telemetry_data["DeltaVExpended"])]] *)
Definition dv_lost (telemetry_data : gmap string (list float)) (tan_vel : float)
    : result (list float) :=
  rbind (item telemetry_data "DeltaVExpended") (fun expended =>
    traverse (fun '(i, dv_exp) =>
                rbind (rbind (item telemetry_data "SpeedOrbital")
                             (fun speed => index speed i))
                      (fun so_i => Ok (dv_exp - so_i + tan_vel)%float))
             (enumerate expended)).

(** ** A decimal reader, used to run the script on concrete files

    Python's [float] is a parameter of the development.  This instance
    reads the numerals Mechjeb writes: an optional sign, digits, and
    optionally a point and more digits. *)

Definition digit_of_ascii (c : Ascii.ascii) : option Z :=
  let n := Z.of_nat (Ascii.nat_of_ascii c) in
  if (48 <=? n)%Z && (n <=? 57)%Z then Some (n - 48)%Z else None.

(** Reads digits up to the end or to the first point; returns the number
    read, how many digits it had, and what follows the point. *)
Fixpoint read_digits (s : string) (acc : Z) (count : nat) : option (Z * nat * option string) :=
  match s with
  | EmptyString => Some (acc, count, None)
  | String c s' =>
      if Ascii.eqb c (Ascii.ascii_of_nat 46) then Some (acc, count, Some s')
      else match digit_of_ascii c with
           | Some d => read_digits s' (10 * acc + d)%Z (S count)
           | None => None
           end
  end.

Definition float_of_Z (z : Z) : float :=
  SF2Prim (binary_normalize prec emax z 0 false).

Definition unsigned_decimal (s : string) : option float :=
  match read_digits s 0 0 with
  | Some (_, O, _) => None
  | Some (n, _, None) => Some (float_of_Z n)
  | Some (n, _, Some frac) =>
      match read_digits frac 0 0 with
      | Some (f, k, None) =>
          Some (float_of_Z (n * 10 ^ Z.of_nat k + f) / float_of_Z (10 ^ Z.of_nat k))%float
      | _ => None
      end
  | None => None
  end.

Definition decimal_float (s : string) : option float :=
  match s with
  | String c s' =>
      if Ascii.eqb c (Ascii.ascii_of_nat 45)
      then (fun x => - x)%float <$> unsigned_decimal s'
      else unsigned_decimal s
  | EmptyString => None
  end.

(** ** Sample files *)

Definition sample_headers : list string :=
  ["DownRange"; "AltitudeASL"; "TimeSinceMark"; "Acceleration"; "SpeedOrbital"; "Q";
   "AoA"; "DeltaVExpended"].

Definition sample_lines : list (list string) :=
  [["0"; "80"; "0"; "1.5"; "175"; "0"; "0"; "0"];
   ["10"; "250"; "1"; "1.5"; "176"; "110"; "2.5"; "12"];
   ["45"; "600"; "2"; "1.75"; "180"; "420"; "1.5"; "25"];
   ["120"; "1100"; "3"; "2"; "190"; "900"; "0.5"; "40"];
   ["250"; "1800"; "4"; "2.25"; "205"; "1500"; "0.25"; "57"]].

(** The table of the sample file. *)
Definition sample_table : gmap string (list float) :=
  list_to_map
    [("DownRange", [0; 10; 45; 120; 250]);
     ("AltitudeASL", [80; 250; 600; 1100; 1800]);
     ("TimeSinceMark", [0; 1; 2; 3; 4]);
     ("Acceleration", [1.5; 1.5; 1.75; 2; 2.25]);
     ("SpeedOrbital", [175; 176; 180; 190; 205]);
     ("Q", [0; 110; 420; 900; 1500]);
     ("AoA", [0; 2.5; 1.5; 0.5; 0.25]);
     ("DeltaVExpended", [0; 12; 25; 40; 57])]%float.

(** A file without the [Q] column, and its table. *)
Definition no_q_rows : list (list string) :=
  [["DownRange"; "AltitudeASL"; "TimeSinceMark"; "Acceleration"; "SpeedOrbital"];
   ["0"; "80"; "0"; "1.5"; "175"]].

Definition no_q_table : gmap string (list float) :=
  list_to_map
    [("DownRange", [0]); ("AltitudeASL", [80]); ("TimeSinceMark", [0]);
     ("Acceleration", [1.5]); ("SpeedOrbital", [175])]%float.

(** A file whose two columns carry the same name. *)
Definition twin_rows : list (list string) := [["A"; "A"]; ["1"; "2"]].

Definition sample_args (rows : list (list string)) (t : option string)
    (verbose_mode : bool) (o : option string) (nv : bool) : Args :=
  {| telemetry_name := "telemetry.csv"; telemetry_rows := rows; title := t;
     verbose := verbose_mode; out := o; no_view := nv |}.

(** ** Vocabulary of the statements *)

(** The columns the charts read: the first six always, the last two only
    with [--verbose]. *)
Definition basic_columns : list string :=
  ["DownRange"; "AltitudeASL"; "TimeSinceMark"; "Acceleration"; "SpeedOrbital"; "Q"].
Definition verbose_columns : list string := ["AoA"; "DeltaVExpended"].
Definition required_columns (verbose_mode : bool) : list string :=
  if verbose_mode then basic_columns ++ verbose_columns else basic_columns.

(** The dependent-argument rule: [--no-view] only together with [--out]. *)
Definition args_accepted (args : Args) : Prop :=
  no_view args = false \/ out args <> None.

(** Events that draw on the figure. *)
Definition is_drawing (ev : event) : bool :=
  match ev with
  | Subplot _ _ _ | Plot _ _ _ | Title _ | Xlabel _ | Ylabel _ | Legend _ | Grid => true
  | _ => false
  end.


Definition is_savefig (ev : event) : bool :=
  match ev with
  | Savefig _ => true
  | _ => false
  end.

Definition is_suptitle (ev : event) : bool :=
  match ev with
  | Suptitle _ _ => true
  | _ => false
  end.


(** Every plot call gets as many x values as y values. *)
Definition plot_series_match (ev : event) : Prop :=
  match ev with
  | Plot xs ys _ => length xs = length ys
  | _ => True
  end.

(** The positions and the titles of the charts of a run, in order. *)
Definition subplots_of (trace : list event) : list Z :=
  omap (fun ev => match ev with Subplot _ _ k => Some k | _ => None end) trace.

Definition titles_of (trace : list event) : list string :=
  omap (fun ev => match ev with Title t => Some t | _ => None end) trace.


(** The namespace [args] with another [--title]. *)
Definition with_title (t : option string) (args : Args) : Args :=
  {| telemetry_name := telemetry_name args;
     telemetry_rows := telemetry_rows args;
     title := t;
     verbose := verbose args;
     out := out args;
     no_view := no_view args |}.

Definition on_stderr (ev : event) : bool :=
  match ev with
  | Print Stderr _ | PrintUsage Stderr => true
  | _ => false
  end.

(** A sample that is a number: a zero or a finite float, not an infinity
    and not NaN. *)
Definition is_finite_sample (x : float) : bool :=
  match Prim2SF x with
  | S754_zero _ | S754_finite _ _ _ => true
  | S754_infinity _ | S754_nan => false
  end.

(** ** Binary64 division, in integers

    The vocabulary of the proof that dividing by a constant preserves the
    order of binary64 numbers, over the integer algorithm that specifies
    the primitive division ([SFdiv] of the standard library). *)

(** The record [mrs] locates the exact value [W] on a grid of step [C]:
    its mantissa is the cell that holds [W], and its round and sticky bits
    tell where [W] lies with respect to the middle of the cell. *)
Definition brackets (C W : Z) (mrs : shr_record) : Prop :=
  (0 <= shr_m mrs /\
   shr_m mrs * C <= W < (shr_m mrs + 1) * C /\
   match shr_r mrs, shr_s mrs with
   | false, false => W = shr_m mrs * C
   | false, true => shr_m mrs * C < W /\ 2 * W < (2 * shr_m mrs + 1) * C
   | true, false => 2 * W = (2 * shr_m mrs + 1) * C
   | true, true => (2 * shr_m mrs + 1) * C < 2 * W
   end)%Z.

(** The float of sign [sx], mantissa [M] and exponent [E], as the last
    step of [binary_round_aux] builds it. *)
Definition pack (sx : bool) (M E : Z) : spec_float :=
  match M with
  | 0%Z => S754_zero sx
  | Zpos m => if (E <=? emax - prec)%Z then S754_finite sx m E else S754_infinity sx
  | Zneg _ => S754_nan
  end.

(** The same after the renormalisation of a mantissa that rounding has
    carried to [2 ^ prec]. *)
Definition finish (sx : bool) (M E : Z) : spec_float :=
  if (M =? 2 ^ prec)%Z then pack sx (2 ^ (prec - 1)) (E + 1) else pack sx M E.

(** [(Ma, Ea)] is below [(Mb, Eb)] among rounded mantissas with their
    exponents: same exponent and smaller mantissa, or smaller exponent and a
    normal mantissa on the right. *)
Definition below (Ma Ea Mb Eb : Z) : Prop :=
  (0 <= Ma <= 2 ^ prec /\ 0 <= Mb <= 2 ^ prec /\
   ((Ea = Eb /\ Ma <= Mb) \/ (Ea < Eb /\ 2 ^ (prec - 1) <= Mb)))%Z.

(** The step of the grid of exponent [e], scaled by the mantissa [m2] of
    the divisor. *)
Definition cell (m2 : positive) (e : Z) : Z := (Zpos m2 * 2 ^ (e - emin))%Z.

(** The dividend [m1 * 2 ^ e1] on the same scale, for a divisor of
    exponent [e2]. *)
Definition scaled (e2 : Z) (m1 : positive) (e1 : Z) : Z :=
  (Zpos m1 * 2 ^ (e1 - e2 - emin))%Z.

(** What the first shift of [binary_round_aux] leaves: a cell of the grid
    of exponent [E] that holds the exact quotient, with a mantissa that
    fits the precision and is normal unless the exponent is the smallest. *)
Definition quotient_cell (m2 : positive) (W : Z) (mrs : shr_record) (E : Z) : Prop :=
  (emin <= E /\ brackets (cell m2 E) W mrs /\
   shr_m mrs < 2 ^ prec /\ (emin < E -> 2 ^ (prec - 1) <= shr_m mrs))%Z.

Definition rounded (mrs : shr_record) : Z :=
  round_nearest_even (shr_m mrs) (loc_of_shr_record mrs).

(** ** Proof automation *)

(** Membership in a list that is written out. *)
Ltac in_list := cbv; repeat constructor.

(** Evaluates a script whose table lookups are known or can be split on. *)
Ltac eval_lookups :=
  repeat (simpl;
          match goal with
          | H : ?td !! ?k = _ |- context [?td !! ?k] => rewrite H
          | |- context [match ?td !! ?k with Some _ => _ | None => _ end] =>
              let E := fresh "E" in destruct (td !! k) eqn:E
          end);
  simpl.

Section Script.

(** Python's [float(str)]: [None] where it raises ValueError. *)
Variable float_of_string : string -> option float.

(** [os.path.basename(__file__)]. *)
Variable script_name : string.

(** ** Lines 56-61: the dependent-argument check *)

Definition check_args (args : Args) : run unit :=
  if no_view args && negb (out_truthy (out args)) then
    emit (PrintUsage Stderr) ;;;
    print Stderr (script_name +:+ ": error: argument --no-view: requires argument --out") ;;;
    sys_exit 2
  else ret tt.

(** ** Lines 67-71: the loader *)

Definition parse_cell (val : string) : result float :=
  match float_of_string val with
  | Some x => Ok x
  | None => Raised ValueError
  end.

(** [tuple(tuple(float(val) for val in line) for line in reader)] *)
Definition raw_data (lines : list (list string)) : result (list (list float)) :=
  traverse (traverse parse_cell) lines.

(** [tuple(row[idx] for row in raw_data)] *)
Definition column (raw : list (list float)) (idx : nat) : result (list float) :=
  traverse (fun row => index row idx) raw.

(** The dictionary comprehension: entries are stored in header order, a
    later entry replacing an earlier one of the same name. *)
Fixpoint build_table (cols : list (nat * string)) (raw : list (list float))
    (d : gmap string (list float)) : result (gmap string (list float)) :=
  match cols with
  | [] => Ok d
  | (idx, col) :: cols' =>
      rbind (column raw idx) (fun c => build_table cols' raw (<[col := c]> d))
  end.

(** [headers = next(reader)] raises StopIteration on an empty stream. *)
Definition load (rows : list (list string)) : result (gmap string (list float)) :=
  match rows with
  | [] => Raised StopIteration
  | headers :: lines =>
      rbind (raw_data lines) (fun raw => build_table (enumerate headers) raw ∅)
  end.

(** ** Lines 75-136: the charts *)

Definition arrange_subplots (args : Args) : Z * Z :=
  if verbose args then (2, 3)%Z else (2, 2)%Z.

Definition subplot (args : Args) (k : Z) : run unit :=
  let '(nrows, ncols) := arrange_subplots args in emit (Subplot nrows ncols k).

Definition get (telemetry_data : gmap string (list float)) (key : string)
    : run (list float) :=
  lift (item telemetry_data key).

Definition decorate (t xl yl : string) : run unit :=
  emit (Title t) ;;; emit (Xlabel xl) ;;; emit (Ylabel yl) ;;; emit Grid.

Definition chart_launch_profile args td : run unit :=
  subplot args 1 ;;;
  down_range <- get td "DownRange" ;;
  altitude <- get td "AltitudeASL" ;;
  emit (Plot (to_km down_range) (to_km altitude) None) ;;;
  decorate "Launch Profile" "Distance downrange (km)" "Altitude ASL (km)".

Definition chart_acceleration args td : run unit :=
  subplot args 2 ;;;
  time <- get td "TimeSinceMark" ;;
  acceleration <- get td "Acceleration" ;;
  emit (Plot time acceleration None) ;;;
  decorate "Acceleration" "MET (s)" "Acceleration (g)".

Definition chart_orbital_velocity args td : run unit :=
  subplot args 3 ;;;
  time <- get td "TimeSinceMark" ;;
  speed <- get td "SpeedOrbital" ;;
  emit (Plot time speed None) ;;;
  decorate "Orbital Velocity" "MET (s)" "Orbital velocity (m/s)".

Definition chart_dynamic_pressure args td : run unit :=
  subplot args 4 ;;;
  altitude <- get td "AltitudeASL" ;;
  q <- get td "Q" ;;
  emit (Plot (to_km altitude) q None) ;;;
  decorate "Dynamic Pressure" "Altitude ASL (km)" "Q (Pa)".

Definition chart_angle_of_attack args td : run unit :=
  subplot args 5 ;;;
  time <- get td "TimeSinceMark" ;;
  aoa <- get td "AoA" ;;
  emit (Plot (drop 3 time) (drop 3 aoa) None) ;;;
  decorate "Angle of Attack" "MET (s)" "AoA (deg)".

Definition chart_delta_v args td : run unit :=
  subplot args 6 ;;;
  time <- get td "TimeSinceMark" ;;
  expended <- get td "DeltaVExpended" ;;
  emit (Plot time expended (Some "Δv Expended")) ;;;
  speed <- get td "SpeedOrbital" ;;
  tan_vel <- lift (index speed 0) ;;
  lost <- lift (dv_lost td tan_vel) ;;
  time' <- get td "TimeSinceMark" ;;
  emit (Plot time' lost (Some "Δv Lost")) ;;;
  emit (Title "Delta-v Expenditure") ;;;
  emit (Xlabel "MET (s)") ;;;
  emit (Ylabel "Δv (m/s)") ;;;
  emit (Legend "upper left") ;;;
  emit Grid.

(** The body of the [try] block. *)
Definition render (args : Args) (td : gmap string (list float)) : run unit :=
  chart_launch_profile args td ;;;
  chart_acceleration args td ;;;
  chart_orbital_velocity args td ;;;
  chart_dynamic_pressure args td ;;;
  if verbose args then
    chart_angle_of_attack args td ;;;
    chart_delta_v args td
  else ret tt.

Definition missing_data_message : string :=
  "Error: could not find correct data entries in the file passed!".

(** ** Lines 143-150: saving and viewing *)

Definition dispatch (args : Args) : run unit :=
  match out args with
  | Some target =>
      print Stdout ("Saving graph to " +:+ dquote +:+ target +:+ dquote) ;;;
      emit (Savefig target) ;;;
      emit (CloseOut target)
  | None => ret tt
  end ;;;
  if negb (no_view args) then
    print Stdout "Opening preview" ;;;
    emit Show
  else ret tt.

(** ** The whole script, after [parse_args] *)

Definition main (args : Args) : run unit :=
  check_args args ;;;
  print Stdout ("KSP Telemetry Grapher v" +:+ version) ;;;
  print Stdout ("Loading Mechjeb telemetry file " +:+ dquote +:+ telemetry_name args +:+ dquote) ;;;
  telemetry_data <- lift (load (telemetry_rows args)) ;;
  emit CloseIn ;;;
  emit (if verbose args then Figure 14 6 else Figure 10 6) ;;;
  (if title_truthy (title args)
   then emit (Suptitle (default EmptyString (title args)) 14)
   else ret tt) ;;;
  try_except_KeyError
    (render args telemetry_data)
    (print Stdout missing_data_message ;;; sys_exit 1) ;;;
  emit (SubplotsAdjust 0.5 0.3) ;;;
  dispatch args ;;;
  print Stdout "Done" ;;;
  sys_exit 0.

(** What a run prints before it reads the file, and the calls between
    loading and drawing. *)
Definition banner_events (args : Args) : list event :=
  [Print Stdout ("KSP Telemetry Grapher v" +:+ version);
   Print Stdout ("Loading Mechjeb telemetry file " +:+ dquote +:+ telemetry_name args +:+ dquote)].

Definition setup_events (args : Args) : list event :=
  [CloseIn; if verbose args then Figure 14 6 else Figure 10 6] ++
  (if title_truthy (title args)
   then [Suptitle (default EmptyString (title args)) 14] else []).

(** The script from the [try] block on. *)
Definition draw_and_dispatch (args : Args) (td : gmap string (list float)) : run unit :=
  try_except_KeyError
    (render args td)
    (print Stdout missing_data_message ;;; sys_exit 1) ;;;
  emit (SubplotsAdjust 0.5 0.3) ;;;
  dispatch args ;;;
  print Stdout "Done" ;;;
  sys_exit 0.

(** ** Well-formed input and what the loader promises *)

(** A header row followed by rows of exactly one float per header position. *)
Definition well_formed_line (headers line : list string) : Prop :=
  length line = length headers /\
  Forall (fun cell => is_Some (float_of_string cell)) line.

Definition well_formed (rows : list (list string)) : Prop :=
  exists headers lines,
    rows = headers :: lines /\ Forall (well_formed_line headers) lines.

(** [c] is the sequence of the [idx]-th cells of the data rows, read as
    floats, in row order. *)
Definition cells_at (lines : list (list string)) (idx : nat) (c : list float) : Prop :=
  Forall2 (fun line x =>
             exists cell, line !! idx = Some cell /\ float_of_string cell = Some x)
          lines c.

(** Every header names the column of the cells at its own position. *)
Definition positional_columns (rows : list (list string))
    (td : gmap string (list float)) : Prop :=
  forall headers lines idx col,
    rows = headers :: lines -> headers !! idx = Some col ->
    exists c, td !! col = Some c /\ cells_at lines idx c.

(** ** The grid of the figure *)

(** A [plt.subplot] call names the grid of the current mode and a position
    inside it. *)
Definition subplot_in_grid (args : Args) (ev : event) : Prop :=
  match ev with
  | Subplot nrows ncols k =>
      (nrows, ncols) = arrange_subplots args /\ (1 <= k <= nrows * ncols)%Z
  | _ => True
  end.

(** ** What decides how the loader ends *)



(** * Properties *)

(** ** Sequencing *)

Lemma Forall_bind {A B} (P : event -> Prop) (m : run A) (k : A -> run B) :
  Forall P (fst m) -> (forall a, Forall P (fst (k a))) -> Forall P (fst (bind m k)).
Proof.
  intros Hm Hk. destruct m as [t [a | e | c]]; simpl in *; try done.
  specialize (Hk a). destruct (k a) as [t' r]. simpl in *.
  by apply Forall_app.
Qed.

Lemma Forall_try {A} (P : event -> Prop) (body handler : run A) :
  Forall P (fst body) -> Forall P (fst handler) ->
  Forall P (fst (try_except_KeyError body handler)).
Proof.
  intros Hb Hh. destruct body as [t [a | [] | c]]; simpl in *; try done.
  destruct handler as [t' r]. by apply Forall_app.
Qed.


(** Walks through a script to show that all its events satisfy a property
    that is decided by looking at the event's constructor. *)
Ltac forall_events :=
  repeat match goal with
         | |- Forall _ (fst (bind _ _)) => apply Forall_bind; [| intros ?]
         | |- Forall _ (fst (try_except_KeyError _ _)) => apply Forall_try
         | |- Forall _ (fst (if ?b then _ else _)) => destruct b
         | |- Forall _ (fst (match ?o with Some _ => _ | None => _ end)) => destruct o
         | |- Forall _ (fst (let '(_, _) := ?p in _)) => destruct p
         end;
  simpl; repeat constructor.

(** ** Comprehensions *)

Lemma traverse_Ok {A B} (f : A -> result B) (l : list A) (ys : list B) :
  traverse f l = Ok ys <-> Forall2 (fun x y => f x = Ok y) l ys.
Proof.
  revert ys. induction l as [| x l IH]; intros ys; simpl.
  - split.
    + intros [= <-]. constructor.
    + intros H. by inversion H.
  - split.
    + destruct (f x) as [y | e | c] eqn:Hx; simpl; try done.
      destruct (traverse f l) as [ys' | e | c] eqn:Hl; simpl; try done.
      intros [= <-]. constructor; [done |]. by apply IH.
    + intros H. inversion H as [| ? y ? ys' Hx Hl]; subst.
      rewrite Hx. simpl. apply IH in Hl. by rewrite Hl.
Qed.

Lemma traverse_total {A B} (f : A -> result B) (l : list A) :
  Forall (fun x => exists y, f x = Ok y) l -> exists ys, traverse f l = Ok ys.
Proof.
  induction 1 as [| x l [y Hy] _ [ys Hys]]; simpl.
  - by exists [].
  - exists (y :: ys). by rewrite Hy, Hys.
Qed.

(** When every element either succeeds or raises the same exception [e],
    and one of them raises, the comprehension raises [e]. *)
Lemma traverse_Raised {A B} (f : A -> result B) (l : list A) (e : exn) :
  Forall (fun x => (exists y, f x = Ok y) \/ f x = Raised e) l ->
  Exists (fun x => f x = Raised e) l ->
  traverse f l = Raised e.
Proof.
  induction 1 as [| x l Hx Hl IH]; intros Hex.
  - by inversion Hex.
  - simpl. destruct Hx as [[y Hy] | Hx].
    + rewrite Hy. simpl. inversion Hex as [? ? Hbad | ? ? Hbad]; subst.
      * congruence.
      * by rewrite (IH Hbad).
    + by rewrite Hx.
Qed.

(** ** The loader *)

Lemma parse_cell_Ok cell x : parse_cell cell = Ok x <-> float_of_string cell = Some x.
Proof. unfold parse_cell. destruct (float_of_string cell); split; congruence. Qed.

Lemma parse_cell_cases cell :
  (exists x, parse_cell cell = Ok x) \/ parse_cell cell = Raised ValueError.
Proof. unfold parse_cell. destruct (float_of_string cell); eauto. Qed.

Lemma raw_data_Ok lines raw :
  raw_data lines = Ok raw <->
  Forall2 (Forall2 (fun cell x => float_of_string cell = Some x)) lines raw.
Proof.
  unfold raw_data. rewrite traverse_Ok.
  split; intros H; (eapply Forall2_impl; [exact H |]); intros line row Hrow;
    [apply traverse_Ok in Hrow | apply traverse_Ok];
    (eapply Forall2_impl; [exact Hrow |]); intros cell x; by rewrite parse_cell_Ok.
Qed.

Lemma raw_data_total headers lines :
  Forall (well_formed_line headers) lines -> exists raw, raw_data lines = Ok raw.
Proof.
  intros Hwf. apply traverse_total.
  eapply Forall_impl; [exact Hwf |]. intros line [_ Hcells].
  apply traverse_total. eapply Forall_impl; [exact Hcells |].
  intros cell [x Hx]. exists x. by apply parse_cell_Ok.
Qed.

Lemma column_Ok raw idx c :
  column raw idx = Ok c <-> Forall2 (fun row x => row !! idx = Some x) raw c.
Proof.
  unfold column. rewrite traverse_Ok.
  split; intros H; (eapply Forall2_impl; [exact H |]); intros row x; unfold index;
    destruct (row !! idx); congruence.
Qed.

Lemma column_total raw idx :
  Forall (fun row => idx < length row) raw -> exists c, column raw idx = Ok c.
Proof.
  intros H. apply traverse_total. eapply Forall_impl; [exact H |].
  intros row Hlt. unfold index.
  destruct (lookup_lt_is_Some_2 row idx Hlt) as [x ->]. by exists x.
Qed.

(** The dictionary comprehension over rows that are long enough: names not
    among the headers keep their entry, and a header that does not occur
    again further right names the column at its own position. *)
Lemma build_table_spec raw hs : forall n d,
  Forall (fun row => n + length hs <= length row) raw ->
  exists d',
    build_table (enumerate_from n hs) raw d = Ok d' /\
    (forall col, col ∉ hs -> d' !! col = d !! col) /\
    (forall i col, hs !! i = Some col -> col ∉ drop (S i) hs ->
       exists c, d' !! col = Some c /\ column raw (n + i) = Ok c).
Proof.
  induction hs as [| h hs IH]; intros n d Hlen; simpl.
  - exists d. split; [done |]. split; [done |]. intros i col Hi. by destruct i.
  - destruct (column_total raw n) as [c0 Hc0].
    { eapply Forall_impl; [exact Hlen |]. simpl. intros; lia. }
    rewrite Hc0. simpl.
    destruct (IH (S n) (<[h := c0]> d)) as (d' & Hd' & Hkeep & Hcol).
    { eapply Forall_impl; [exact Hlen |]. simpl. intros; lia. }
    exists d'. split; [done |]. split.
    + intros col Hnotin. apply not_elem_of_cons in Hnotin as [Hne Hnotin].
      rewrite (Hkeep col Hnotin). by rewrite lookup_insert_ne.
    + intros [| i] col Hi Hlast; simpl in *.
      * injection Hi as ->. exists c0. rewrite Nat.add_0_r. split; [| done].
        rewrite (Hkeep col Hlast). by rewrite lookup_insert_eq.
      * destruct (Hcol i col Hi Hlast) as (c & Hc & Hcc).
        exists c. split; [done |]. by rewrite Nat.add_succ_r.
Qed.

(** A name in a list has a last occurrence. *)
Lemma last_occurrence `{EqDecision A} (x : A) (l : list A) :
  x ∈ l -> exists i, l !! i = Some x /\ x ∉ drop (S i) l.
Proof.
  induction l as [| y l IH]; intros Hin.
  - by apply elem_of_nil in Hin.
  - destruct (decide (x ∈ l)) as [Hl | Hl].
    + destruct (IH Hl) as (i & Hi & Hlast). by exists (S i).
    + apply elem_of_cons in Hin as [-> | Hin]; [| done].
      exists 0. done.
Qed.

Lemma cells_of_column lines raw idx c :
  raw_data lines = Ok raw -> column raw idx = Ok c -> cells_at lines idx c.
Proof.
  rewrite raw_data_Ok, column_Ok. intros Hraw Hcol.
  apply Forall2_same_length_lookup. split.
  - rewrite (Forall2_length _ _ _ Hraw). by apply Forall2_length in Hcol.
  - intros r line x Hline Hx.
    destruct (Forall2_lookup_l _ _ _ _ _ Hraw Hline) as (row & Hrow & Hcells).
    pose proof (Forall2_lookup_lr _ _ _ _ _ _ Hcol Hrow Hx) as Hidx.
    destruct (Forall2_lookup_r _ _ _ _ _ Hcells Hidx) as (cell & Hcell & Hparse).
    by exists cell.
Qed.

Lemma NoDup_not_later {A} (l : list A) (i : nat) (x : A) :
  NoDup l -> l !! i = Some x -> x ∉ drop (S i) l.
Proof.
  intros Hnd Hi Hin. apply list_elem_of_lookup in Hin as [j Hj].
  rewrite lookup_drop in Hj.
  pose proof (NoDup_lookup _ _ _ _ Hnd Hi Hj). lia.
Qed.

(** C3 (amended).  For every well-formed CSV input (a header row followed by
    rows of exactly one float per header position) the loader produces a
    table in which every header that does not occur again further right in
    the header row - so every header, when the names are distinct, as the
    data model assumes - names the ordered sequence of the cells at its own
    position; and every column of the table, whatever the header names, is
    as long as the number of data rows (input rows minus one). *)
Theorem load_columns (rows lines : list (list string)) (headers : list string) :
  rows = headers :: lines -> Forall (well_formed_line headers) lines ->
  exists td,
    load rows = Ok td /\
    (forall idx col, headers !! idx = Some col -> col ∉ drop (S idx) headers ->
       exists c, td !! col = Some c /\ cells_at lines idx c) /\
    (NoDup headers -> positional_columns rows td) /\
    (forall col c, td !! col = Some c -> length c = length lines) /\
    length lines = length rows - 1.
Proof.
  intros -> Hwf. rename headers into hs.
  destruct (raw_data_total hs lines Hwf) as [raw Hraw].
  assert (Hlen : Forall (fun row => 0 + length hs <= length row) raw).
  { apply raw_data_Ok in Hraw. apply Forall_forall. intros row Hrow.
    apply list_elem_of_lookup in Hrow as [r Hr].
    destruct (Forall2_lookup_r _ _ _ _ _ Hraw Hr) as (line & Hline & Hcells).
    rewrite <- (Forall2_length _ _ _ Hcells).
    rewrite Forall_forall in Hwf.
    destruct (Hwf line) as [-> _]; [| simpl; lia].
    apply list_elem_of_lookup. eauto. }
  destruct (build_table_spec raw hs 0 ∅ Hlen) as (td & Htd & Hkeep & Hcol).
  assert (Hpos : forall idx col, hs !! idx = Some col -> col ∉ drop (S idx) hs ->
            exists c, td !! col = Some c /\ cells_at lines idx c).
  { intros idx col Hidx Hlast.
    destruct (Hcol idx col Hidx Hlast) as (c & Hc & Hcc).
    exists c. split; [done |]. by apply (cells_of_column lines raw). }
  exists td. unfold load. rewrite Hraw. simpl. fold (enumerate_from 0 hs).
  split; [exact Htd |]. split; [exact Hpos |]. split; [| split].
  - intros Hnd headers' lines' idx col [= <- <-] Hidx.
    apply Hpos; [done |]. by apply NoDup_not_later.
  - intros col c Hc.
    destruct (decide (col ∈ hs)) as [Hin | Hout].
    + destruct (last_occurrence col hs Hin) as (i & Hi & Hlast).
      destruct (Hpos i col Hi Hlast) as (c' & Hc' & Hcells).
      assert (c' = c) as -> by congruence.
      symmetry. exact (Forall2_length _ _ _ Hcells).
    + rewrite (Hkeep col Hout) in Hc. by rewrite lookup_empty in Hc.
  - simpl. lia.
Qed.

(** ** The charts *)

Lemma render_draws_only args td :
  Forall (fun ev => is_drawing ev = true) (fst (render args td)).
Proof.
  unfold render, chart_launch_profile, chart_acceleration, chart_orbital_velocity,
    chart_dynamic_pressure, chart_angle_of_attack, chart_delta_v, subplot,
    arrange_subplots, decorate, get, lift, emit.
  forall_events.
Qed.

Lemma check_args_accepted args : args_accepted args -> check_args args = ret tt.
Proof.
  unfold args_accepted, check_args. intros [-> | Hout]; [done |].
  destruct (out args); [| done]. simpl. by rewrite andb_false_r.
Qed.

(** ** The command line *)

(** C1.  When [--no-view] is given without [--out], the run consists of the
    usage line and the diagnostic, both on the error stream, and ends with
    exit code 2.  The check comes right after argument parsing: nothing is
    printed on standard output, so in particular not the "Loading Mechjeb
    telemetry file" message, and the result does not depend on the contents
    of the telemetry file, which is not read. *)
Theorem no_view_requires_out args :
  no_view args = true -> out args = None ->
  main args =
    ([PrintUsage Stderr;
      Print Stderr (script_name +:+ ": error: argument --no-view: requires argument --out")],
     Exited 2) /\
  exit_status (snd (main args)) = 2%Z /\
  Forall (fun ev => on_stderr ev = true) (fst (main args)) /\
  (forall msg, Print Stdout msg ∉ fst (main args)).
Proof.
  intros Hnv Hout.
  assert (Hmain : main args =
    ([PrintUsage Stderr;
      Print Stderr (script_name +:+ ": error: argument --no-view: requires argument --out")],
     Exited 2)).
  { unfold main, check_args. by rewrite Hnv, Hout. }
  rewrite Hmain. simpl. split; [done |]. split; [done |]. split.
  - by repeat constructor.
  - intros msg Hin. repeat (apply elem_of_cons in Hin as [Hin | Hin]; [done |]).
    by apply elem_of_nil in Hin.
Qed.

(** C10.  [--title] with the empty string behaves exactly as a run without
    [--title]: the two runs perform the same events and end the same way,
    and no figure title is set, because the title is tested for truth. *)
Theorem empty_title_is_no_title args :
  title args = Some EmptyString ->
  main args = main (with_title None args) /\
  Forall (fun ev => is_suptitle ev = false) (fst (main args)).
Proof.
  intros Ht. split.
  - unfold main, check_args, dispatch, with_title. simpl. by rewrite Ht.
  - unfold main. rewrite Ht. simpl title_truthy. cbv iota.
    unfold check_args, dispatch, print, emit, lift, sys_exit.
    forall_events.
    all: try (eapply Forall_impl; [apply render_draws_only |];
              intros [] ?; simpl in *; congruence).
    by destruct (verbose args).
Qed.

(** ** The script as a whole *)

Lemma main_loaded args td :
  args_accepted args -> load (telemetry_rows args) = Ok td ->
  main args =
    (banner_events args ++ setup_events args ++ fst (draw_and_dispatch args td),
     snd (draw_and_dispatch args td)).
Proof.
  intros Hacc Hload. unfold main. rewrite (check_args_accepted args Hacc), Hload.
  unfold draw_and_dispatch, setup_events, banner_events.
  unfold ret, print, emit, lift. cbn [bind].
  match goal with
  | |- context [bind (try_except_KeyError ?b ?h) ?k] =>
      destruct (bind (try_except_KeyError b h) k) as [t r]
  end.
  destruct (title_truthy (title args)); reflexivity.
Qed.

Lemma main_load_failed args e :
  args_accepted args -> load (telemetry_rows args) = Raised e ->
  main args = (banner_events args, Raised e).
Proof.
  intros Hacc Hload. unfold main. by rewrite (check_args_accepted args Hacc), Hload.
Qed.

Lemma traverse_cases {A B} (f : A -> result B) (l : list A) (e : exn) :
  Forall (fun x => (exists y, f x = Ok y) \/ f x = Raised e) l ->
  (exists ys, traverse f l = Ok ys) \/ traverse f l = Raised e.
Proof.
  induction 1 as [| x l [[y Hy] | Hx] _ [[ys Hys] | Hl]]; simpl.
  - left. by exists [].
  - left. exists (y :: ys). by rewrite Hy, Hys.
  - right. by rewrite Hy, Hl.
  - right. by rewrite Hx.
  - right. by rewrite Hx.
Qed.

Lemma raw_data_bad_cell lines line cell :
  line ∈ lines -> cell ∈ line -> float_of_string cell = None ->
  raw_data lines = Raised ValueError.
Proof.
  intros Hline Hcell Hbad. unfold raw_data.
  assert (Hall : forall l : list string,
            Forall (fun c => (exists y, parse_cell c = Ok y) \/
                             parse_cell c = Raised ValueError) l).
  { intros l. apply Forall_forall. intros c _. apply parse_cell_cases. }
  apply traverse_Raised.
  - apply Forall_forall. intros l _. apply traverse_cases, Hall.
  - apply Exists_exists. exists line. split; [done |].
    apply traverse_Raised; [apply Hall |].
    apply Exists_exists. exists cell. split; [done |].
    unfold parse_cell. by rewrite Hbad.
Qed.

(** C7.  When a data cell does not parse as a float, the loader raises
    ValueError, whatever the other cells hold; nothing catches it: the run
    ends there, after the two opening messages, with the exception
    propagating and a non-zero exit status. *)
Theorem non_numeric_cell_is_fatal args headers lines line cell :
  args_accepted args ->
  telemetry_rows args = headers :: lines ->
  line ∈ lines -> cell ∈ line -> float_of_string cell = None ->
  load (telemetry_rows args) = Raised ValueError /\
  main args = (banner_events args, Raised ValueError) /\
  exit_status (snd (main args)) <> 0%Z.
Proof.
  intros Hacc Hrows Hline Hcell Hbad.
  assert (Hload : load (telemetry_rows args) = Raised ValueError).
  { rewrite Hrows. unfold load.
    by rewrite (raw_data_bad_cell lines line cell Hline Hcell Hbad). }
  split; [done |]. rewrite (main_load_failed args ValueError Hacc Hload).
  by split.
Qed.

(** ** Missing columns *)

Lemma render_missing_column args td col :
  col ∈ required_columns (verbose args) -> td !! col = None ->
  snd (render args td) = Raised KeyError.
Proof.
  intros Hin Hnone.
  unfold render, chart_launch_profile, chart_acceleration, chart_orbital_velocity,
    chart_dynamic_pressure, chart_angle_of_attack, chart_delta_v, subplot,
    arrange_subplots, decorate, get, lift, item, emit.
  destruct (verbose args); simpl in Hin;
    repeat (apply elem_of_cons in Hin as [-> | Hin]);
    try (by apply elem_of_nil in Hin);
    eval_lookups; try reflexivity; try congruence.
Qed.

Lemma drawing_events_satisfy (P : event -> Prop) args td :
  (forall ev, is_drawing ev = true -> P ev) -> Forall P (fst (render args td)).
Proof.
  intros HP. eapply Forall_impl; [apply render_draws_only |]. exact HP.
Qed.

Lemma draw_and_dispatch_KeyError args td t :
  render args td = (t, Raised KeyError) ->
  draw_and_dispatch args td = (t ++ [Print Stdout missing_data_message], Exited 1).
Proof. intros H. unfold draw_and_dispatch. by rewrite H. Qed.

Lemma draw_and_dispatch_uncaught args td t e :
  render args td = (t, Raised e) -> e <> KeyError ->
  draw_and_dispatch args td = (t, Raised e).
Proof. intros H He. unfold draw_and_dispatch. rewrite H. by destruct e. Qed.

Lemma draw_and_dispatch_Ok args td t :
  render args td = (t, Ok tt) ->
  draw_and_dispatch args td =
    (t ++ SubplotsAdjust 0.5 0.3 :: fst (dispatch args) ++ [Print Stdout "Done"],
     Exited 0).
Proof.
  intros H. unfold draw_and_dispatch. rewrite H.
  unfold dispatch. destruct (out args), (no_view args); reflexivity.
Qed.

(** C2 (as the code behaves).  When the table lacks a column that the
    active mode requires, the [try] block raises KeyError, the handler
    catches it, and the run ends with exit code 1 without a call to
    [savefig], also when [--out] was given.  The diagnostic is the last
    event of the run and goes to standard output: nothing is written to the
    error stream, unlike the diagnostic of the argument check. *)
Theorem missing_column_exit args td col :
  args_accepted args -> load (telemetry_rows args) = Ok td ->
  col ∈ required_columns (verbose args) -> td !! col = None ->
  snd (render args td) = Raised KeyError /\
  snd (main args) = Exited 1 /\
  last (fst (main args)) = Some (Print Stdout missing_data_message) /\
  Forall (fun ev => on_stderr ev = false) (fst (main args)) /\
  Forall (fun ev => is_savefig ev = false) (fst (main args)).
Proof.
  intros Hacc Hload Hin Hnone.
  pose proof (render_missing_column args td col Hin Hnone) as Hr.
  split; [exact Hr |].
  destruct (render args td) as [t r] eqn:Hrender. simpl in Hr. subst r.
  rewrite (main_loaded args td Hacc Hload),
    (draw_and_dispatch_KeyError args td t Hrender).
  cbn [fst snd]. split; [done |]. split.
  - rewrite !app_assoc. apply last_snoc.
  - assert (Ht : forall P : event -> Prop,
              (forall ev, is_drawing ev = true -> P ev) -> Forall P t).
    { intros P HP. pose proof (drawing_events_satisfy P args td HP) as H.
      by rewrite Hrender in H. }
    unfold banner_events, setup_events.
    split; repeat apply Forall_app_2;
      try (apply Ht; intros [] ?; simpl in *; congruence);
      destruct (verbose args), (title_truthy (title args));
      by repeat constructor.
Qed.

(** ** A file without data rows *)

Lemma load_header_only headers :
  exists td, load [headers] = Ok td /\ forall col, col ∈ headers -> td !! col = Some [].
Proof.
  destruct (build_table_spec [] headers 0 ∅ ltac:(constructor)) as (td & Htd & _ & Hcol).
  exists td. split; [exact Htd |]. intros col Hin.
  destruct (last_occurrence col headers Hin) as (i & Hi & Hlast).
  destruct (Hcol i col Hi Hlast) as (c & Hc & Hcc).
  injection Hcc as <-. exact Hc.
Qed.

(** C9.  In verbose mode a file with a header row and no data rows, even
    one with all eight required columns, makes the run die of an IndexError:
    the delta-v chart has drawn the expended series (empty) and then reads
    [SpeedOrbital[0]].  The error is not the KeyError of the missing-column
    handler: its message is not printed and the exception propagates. *)
Theorem verbose_needs_a_row args headers :
  args_accepted args -> verbose args = true ->
  telemetry_rows args = [headers] ->
  (forall col, col ∈ required_columns true -> col ∈ headers) ->
  snd (main args) = Raised IndexError /\
  exit_status (snd (main args)) = 1%Z /\
  last (fst (main args)) = Some (Plot [] [] (Some "Δv Expended")) /\
  Forall (fun ev => ev <> Print Stdout missing_data_message) (fst (main args)).
Proof.
  intros Hacc Hv Hrows Hcols.
  destruct (load_header_only headers) as (td & Hload & Htd).
  rewrite <- Hrows in Hload.
  assert (Hcol : forall col, col ∈ required_columns true -> td !! col = Some []).
  { intros col Hin. apply Htd, Hcols, Hin. }
  pose proof (Hcol "DownRange" ltac:(in_list)) as H1.
  pose proof (Hcol "AltitudeASL" ltac:(in_list)) as H2.
  pose proof (Hcol "TimeSinceMark" ltac:(in_list)) as H3.
  pose proof (Hcol "Acceleration" ltac:(in_list)) as H4.
  pose proof (Hcol "SpeedOrbital" ltac:(in_list)) as H5.
  pose proof (Hcol "Q" ltac:(in_list)) as H6.
  pose proof (Hcol "AoA" ltac:(in_list)) as H7.
  pose proof (Hcol "DeltaVExpended" ltac:(in_list)) as H8.
  assert (Hrender : exists t, render args td = (t ++ [Plot [] [] (Some "Δv Expended")], Raised IndexError)).
  { unfold render, chart_launch_profile, chart_acceleration, chart_orbital_velocity,
      chart_dynamic_pressure, chart_angle_of_attack, chart_delta_v, subplot,
      arrange_subplots, decorate, get, lift, item, emit.
    rewrite Hv. eval_lookups.
    match goal with
    | |- exists t, (?l, _) = _ => exists (removelast l)
    end.
    reflexivity. }
  destruct Hrender as [t Hrender].
  rewrite (main_loaded args td Hacc Hload),
    (draw_and_dispatch_uncaught args td _ IndexError Hrender ltac:(done)).
  cbn [fst snd exit_status]. split; [done |]. split; [done |]. split.
  - rewrite !app_assoc. apply last_snoc.
  - assert (Ht : Forall (fun ev => is_drawing ev = true) (t ++ [Plot [] [] (Some "Δv Expended")])).
    { pose proof (render_draws_only args td) as H. by rewrite Hrender in H. }
    unfold banner_events, setup_events, missing_data_message. rewrite Hv.
    apply Forall_app_2; [| apply Forall_app_2].
    + repeat constructor; intros Heq; cbv in Heq; congruence.
    + destruct (title_truthy (title args)); repeat constructor; congruence.
    + eapply Forall_impl; [exact Ht |]. intros [] ? ?; simpl in *; congruence.
Qed.

(** ** Saving and viewing *)


(** ** The charts, one by one *)

Lemma chart_launch_profile_Ok args td down_range altitude :
  td !! "DownRange" = Some down_range -> td !! "AltitudeASL" = Some altitude ->
  chart_launch_profile args td =
    ([Subplot 2 (if verbose args then 3 else 2) 1;
      Plot (to_km down_range) (to_km altitude) None;
      Title "Launch Profile"; Xlabel "Distance downrange (km)";
      Ylabel "Altitude ASL (km)"; Grid], Ok tt).
Proof.
  intros H1 H2. unfold chart_launch_profile, subplot, arrange_subplots, get, item.
  rewrite H1, H2. by destruct (verbose args).
Qed.

Lemma chart_acceleration_Ok args td time acceleration :
  td !! "TimeSinceMark" = Some time -> td !! "Acceleration" = Some acceleration ->
  chart_acceleration args td =
    ([Subplot 2 (if verbose args then 3 else 2) 2;
      Plot time acceleration None;
      Title "Acceleration"; Xlabel "MET (s)"; Ylabel "Acceleration (g)"; Grid], Ok tt).
Proof.
  intros H1 H2. unfold chart_acceleration, subplot, arrange_subplots, get, item.
  rewrite H1, H2. by destruct (verbose args).
Qed.

Lemma chart_orbital_velocity_Ok args td time speed :
  td !! "TimeSinceMark" = Some time -> td !! "SpeedOrbital" = Some speed ->
  chart_orbital_velocity args td =
    ([Subplot 2 (if verbose args then 3 else 2) 3;
      Plot time speed None;
      Title "Orbital Velocity"; Xlabel "MET (s)"; Ylabel "Orbital velocity (m/s)";
      Grid], Ok tt).
Proof.
  intros H1 H2. unfold chart_orbital_velocity, subplot, arrange_subplots, get, item.
  rewrite H1, H2. by destruct (verbose args).
Qed.

Lemma chart_dynamic_pressure_Ok args td altitude q :
  td !! "AltitudeASL" = Some altitude -> td !! "Q" = Some q ->
  chart_dynamic_pressure args td =
    ([Subplot 2 (if verbose args then 3 else 2) 4;
      Plot (to_km altitude) q None;
      Title "Dynamic Pressure"; Xlabel "Altitude ASL (km)"; Ylabel "Q (Pa)"; Grid],
     Ok tt).
Proof.
  intros H1 H2. unfold chart_dynamic_pressure, subplot, arrange_subplots, get, item.
  rewrite H1, H2. by destruct (verbose args).
Qed.

Lemma chart_angle_of_attack_Ok args td time aoa :
  td !! "TimeSinceMark" = Some time -> td !! "AoA" = Some aoa ->
  chart_angle_of_attack args td =
    ([Subplot 2 (if verbose args then 3 else 2) 5;
      Plot (drop 3 time) (drop 3 aoa) None;
      Title "Angle of Attack"; Xlabel "MET (s)"; Ylabel "AoA (deg)"; Grid], Ok tt).
Proof.
  intros H1 H2. unfold chart_angle_of_attack, subplot, arrange_subplots, get, item.
  rewrite H1, H2. by destruct (verbose args).
Qed.

(** With the six basic columns in the table, the first four charts are
    drawn in full, one after the other. *)
Lemma basic_charts_Ok args td :
  (forall col, col ∈ basic_columns -> is_Some (td !! col)) ->
  exists t,
    (chart_launch_profile args td ;;; chart_acceleration args td ;;;
     chart_orbital_velocity args td ;;; chart_dynamic_pressure args td) = (t, Ok tt) /\
    forall k : unit -> run unit,
      (chart_launch_profile args td ;;; chart_acceleration args td ;;;
       chart_orbital_velocity args td ;;; chart_dynamic_pressure args td ;;; k tt) =
      (t ++ fst (k tt), snd (k tt)).
Proof.
  intros Hcols.
  destruct (Hcols "DownRange" ltac:(in_list)) as [down_range H1].
  destruct (Hcols "AltitudeASL" ltac:(in_list)) as [altitude H2].
  destruct (Hcols "TimeSinceMark" ltac:(in_list)) as [time H3].
  destruct (Hcols "Acceleration" ltac:(in_list)) as [acceleration H4].
  destruct (Hcols "SpeedOrbital" ltac:(in_list)) as [speed H5].
  destruct (Hcols "Q" ltac:(in_list)) as [q H6].
  rewrite (chart_launch_profile_Ok args td _ _ H1 H2),
    (chart_acceleration_Ok args td _ _ H3 H4),
    (chart_orbital_velocity_Ok args td _ _ H3 H5),
    (chart_dynamic_pressure_Ok args td _ _ H2 H6).
  eexists. split; [reflexivity |].
  intros k. cbn [bind]. by destruct (k tt).
Qed.

(** In verbose mode, with the basic columns and [AoA] in the table, the
    angle-of-attack chart is drawn after the four basic ones, and the
    delta-v chart decides how the [try] block ends. *)
Lemma render_verbose args td time aoa :
  verbose args = true ->
  (forall col, col ∈ basic_columns -> is_Some (td !! col)) ->
  td !! "TimeSinceMark" = Some time -> td !! "AoA" = Some aoa ->
  exists before,
    render args td =
      (before ++
       [Subplot 2 3 5; Plot (drop 3 time) (drop 3 aoa) None;
        Title "Angle of Attack"; Xlabel "MET (s)"; Ylabel "AoA (deg)"; Grid] ++
       fst (chart_delta_v args td),
       snd (chart_delta_v args td)).
Proof.
  intros Hv Hcols Htime Haoa.
  destruct (basic_charts_Ok args td Hcols) as (t & _ & Hk).
  exists t. unfold render. rewrite Hv.
  rewrite (Hk (fun _ => chart_angle_of_attack args td ;;; chart_delta_v args td)).
  rewrite (chart_angle_of_attack_Ok args td time aoa Htime Haoa), Hv.
  cbn [bind]. by destruct (chart_delta_v args td).
Qed.

(** C5.  In verbose mode the Angle of Attack chart plots [TimeSinceMark]
    against [AoA] with the first three samples of both dropped: sample [i]
    of either trimmed series is sample [3 + i] of the column, so the two
    stay aligned.  With [n] data rows the trimmed series have [n - 3]
    elements when [n > 3]; with [n <= 3] they are empty, and the chart is
    drawn all the same. *)
Theorem angle_of_attack_trim args td time aoa n :
  verbose args = true ->
  (forall col, col ∈ basic_columns -> is_Some (td !! col)) ->
  td !! "TimeSinceMark" = Some time -> td !! "AoA" = Some aoa ->
  length time = n -> length aoa = n ->
  (exists before after,
     fst (render args td) =
       before ++ [Subplot 2 3 5; Plot (drop 3 time) (drop 3 aoa) None] ++ after) /\
  snd (chart_angle_of_attack args td) = Ok tt /\
  (forall i, drop 3 time !! i = time !! (3 + i)) /\
  (forall i, drop 3 aoa !! i = aoa !! (3 + i)) /\
  (3 < n -> length (drop 3 time) = n - 3 /\ length (drop 3 aoa) = n - 3) /\
  (n <= 3 -> drop 3 time = [] /\ drop 3 aoa = []).
Proof.
  intros Hv Hcols Htime Haoa Hn1 Hn2.
  split; [| split; [| split; [| split; [| split]]]].
  - destruct (render_verbose args td time aoa Hv Hcols Htime Haoa) as [before ->].
    exists before. eexists. cbn [fst]. reflexivity.
  - by rewrite (chart_angle_of_attack_Ok args td time aoa Htime Haoa).
  - intros i. apply lookup_drop.
  - intros i. apply lookup_drop.
  - intros Hlt. rewrite !length_drop. lia.
  - intros Hle. split; apply drop_ge; lia.
Qed.

(** ** Delta-v lost *)

(** A float that compares equal to zero is one of the two zeros. *)
Lemma eqb_zero_cases (x : float) :
  (x =? 0)%float = true -> x = 0%float \/ x = (-0)%float.
Proof.
  rewrite FloatAxioms.eqb_spec. change (Prim2SF 0) with (S754_zero false).
  intros H. rewrite <- (SF2Prim_Prim2SF x).
  destruct (Prim2SF x) as [[] | [] | | [] m e]; try discriminate H; auto.
Qed.

Lemma lost_of_zeros (dv so s0 : float) :
  (dv =? 0)%float = true -> (so =? 0)%float = true -> (s0 =? 0)%float = true ->
  (dv - so + s0 =? s0)%float = true /\ (dv - so + s0 =? 0)%float = true.
Proof.
  intros H1 H2 H3.
  destruct (eqb_zero_cases dv H1) as [-> | ->],
    (eqb_zero_cases so H2) as [-> | ->],
    (eqb_zero_cases s0 H3) as [-> | ->]; by vm_compute.
Qed.

Lemma dv_lost_from td (speed : list float) (tan_vel : float) (expended : list float) :
  td !! "SpeedOrbital" = Some speed ->
  forall n,
    length expended <= length (drop n speed) ->
    traverse (fun '(i, dv_exp) =>
                rbind (rbind (item td "SpeedOrbital") (fun speed => index speed i))
                      (fun so_i => Ok (dv_exp - so_i + tan_vel)%float))
             (enumerate_from n expended) =
    Ok (zip_with (fun dv so => dv - so + tan_vel)%float expended (drop n speed)).
Proof.
  intros Hspeed.
  induction expended as [| dv expended IH]; intros n Hlen; [done |].
  destruct (drop n speed) as [| so rest] eqn:Hdrop; [simpl in Hlen; lia |].
  assert (Hn : speed !! n = Some so).
  { rewrite <- (Nat.add_0_r n), <- lookup_drop. by rewrite Hdrop. }
  assert (Hrest : drop (S n) speed = rest).
  { replace (S n) with (n + 1) by lia. rewrite <- drop_drop. by rewrite Hdrop. }
  cbn [enumerate_from traverse]. unfold item at 1, index at 1. rewrite Hspeed.
  cbn [rbind]. rewrite Hn. cbn [rbind].
  rewrite IH; [| rewrite Hrest; simpl in Hlen; lia].
  by rewrite Hrest.
Qed.

Lemma dv_lost_Ok td expended speed tan_vel :
  td !! "DeltaVExpended" = Some expended -> td !! "SpeedOrbital" = Some speed ->
  length expended <= length speed ->
  dv_lost td tan_vel =
    Ok (zip_with (fun dv so => dv - so + tan_vel)%float expended speed).
Proof.
  intros H1 H2 Hlen. unfold dv_lost, enumerate. unfold item at 1. rewrite H1.
  cbn [rbind]. by rewrite (dv_lost_from td speed tan_vel expended H2 0 Hlen).
Qed.

(** C4.  In verbose mode the delta-v chart plots, under the label
    "Δv Lost", a series with one value per sample, the value at index [i]
    being [DeltaVExpended[i] - SpeedOrbital[i] + SpeedOrbital[0]] in
    binary64 arithmetic, evaluated left to right.  When both columns are
    zero throughout, every value of the series compares equal to
    [SpeedOrbital[0]] and to zero. *)
Theorem delta_v_lost_series args td time aoa expended speed s0 :
  verbose args = true ->
  (forall col, col ∈ basic_columns -> is_Some (td !! col)) ->
  td !! "TimeSinceMark" = Some time -> td !! "AoA" = Some aoa ->
  td !! "DeltaVExpended" = Some expended -> td !! "SpeedOrbital" = Some speed ->
  length speed = length expended -> speed !! 0 = Some s0 ->
  exists lost,
    dv_lost td s0 = Ok lost /\
    (exists before,
       render args td =
         (before ++
          [Subplot 2 3 6; Plot time expended (Some "Δv Expended");
           Plot time lost (Some "Δv Lost");
           Title "Delta-v Expenditure"; Xlabel "MET (s)"; Ylabel "Δv (m/s)";
           Legend "upper left"; Grid], Ok tt)) /\
    length lost = length expended /\
    (forall i dv so, expended !! i = Some dv -> speed !! i = Some so ->
       lost !! i = Some (dv - so + s0)%float) /\
    ((forall x, x ∈ expended -> (x =? 0)%float = true) ->
     (forall x, x ∈ speed -> (x =? 0)%float = true) ->
     forall x, x ∈ lost -> (x =? s0)%float = true /\ (x =? 0)%float = true).
Proof.
  intros Hv Hcols Htime Haoa Hexp Hspeed Hlen H0.
  pose proof (dv_lost_Ok td expended speed s0 Hexp Hspeed ltac:(lia)) as Hlost.
  exists (zip_with (fun dv so => dv - so + s0)%float expended speed).
  split; [exact Hlost |]. split; [| split; [| split]].
  - destruct (render_verbose args td time aoa Hv Hcols Htime Haoa) as [before ->].
    assert (Hchart : chart_delta_v args td =
              ([Subplot 2 3 6; Plot time expended (Some "Δv Expended");
                Plot time (zip_with (fun dv so => dv - so + s0)%float expended speed)
                  (Some "Δv Lost");
                Title "Delta-v Expenditure"; Xlabel "MET (s)"; Ylabel "Δv (m/s)";
                Legend "upper left"; Grid], Ok tt)).
    { unfold chart_delta_v, subplot, arrange_subplots, get, lift, emit, item, index.
      rewrite Hv. cbn [bind app].
      repeat (first [rewrite Htime | rewrite Hexp | rewrite Hspeed
                    | rewrite H0 | rewrite Hlost]; cbn [bind app]).
      reflexivity. }
    rewrite Hchart. cbn [fst snd].
    eexists. rewrite app_assoc. reflexivity.
  - rewrite length_zip_with. lia.
  - intros i dv so Hdv Hso. rewrite lookup_zip_with, Hdv, Hso. done.
  - intros Hze Hzs x Hx.
    apply list_elem_of_lookup in Hx as [i Hi].
    apply lookup_zip_with_Some in Hi as (dv & so & -> & Hdv & Hso).
    apply lost_of_zeros.
    + apply Hze. apply list_elem_of_lookup. eauto.
    + apply Hzs. apply list_elem_of_lookup. eauto.
    + apply Hzs. apply list_elem_of_lookup. eauto.
Qed.

(** * Further properties *)

(** ** The loader on any input *)

Lemma traverse_length {A B} (f : A -> result B) (l : list A) (ys : list B) :
  traverse f l = Ok ys -> length ys = length l.
Proof. rewrite traverse_Ok. intros H. symmetry. exact (Forall2_length _ _ _ H). Qed.

Lemma raw_data_cases lines :
  (exists raw, raw_data lines = Ok raw) \/ raw_data lines = Raised ValueError.
Proof.
  apply traverse_cases. apply Forall_forall. intros line _.
  apply traverse_cases. apply Forall_forall. intros cell _. apply parse_cell_cases.
Qed.


Lemma raw_data_lengths lines raw :
  raw_data lines = Ok raw -> Forall2 (fun line row => length row = length line) lines raw.
Proof.
  rewrite raw_data_Ok. intros H. eapply Forall2_impl; [exact H |].
  intros line row Hcells. symmetry. exact (Forall2_length _ _ _ Hcells).
Qed.

Lemma column_short raw idx :
  Exists (fun row => length row <= idx) raw -> column raw idx = Raised IndexError.
Proof.
  intros Hex. unfold column. apply traverse_Raised.
  - apply Forall_forall. intros row _. unfold index. destruct (row !! idx); eauto.
  - eapply Exists_impl; [exact Hex |]. intros row Hlen. unfold index.
    by rewrite (lookup_ge_None_2 row idx Hlen).
Qed.

(** The dictionary comprehension ends well exactly when every row reaches
    the last header, and otherwise raises IndexError. *)
Lemma build_table_cases raw hs : forall n d,
  Forall (fun row => n <= length row) raw ->
  (Forall (fun row => n + length hs <= length row) raw /\
   exists d', build_table (enumerate_from n hs) raw d = Ok d') \/
  (~ Forall (fun row => n + length hs <= length row) raw /\
   build_table (enumerate_from n hs) raw d = Raised IndexError).
Proof.
  induction hs as [| h hs IH]; intros n d Hn; simpl.
  - left. split; [| by exists d].
    eapply Forall_impl; [exact Hn |]. simpl. intros; lia.
  - destruct (decide (Forall (fun row => S n <= length row) raw)) as [Hlong | Hshort].
    + destruct (column_total raw n) as [c Hc].
      { eapply Forall_impl; [exact Hlong |]. simpl. intros; lia. }
      rewrite Hc. simpl.
      destruct (IH (S n) (<[h := c]> d) Hlong) as [[Hall Hok] | [Hnot Hbad]].
      * left. split; [| exact Hok].
        eapply Forall_impl; [exact Hall |]. simpl. intros; lia.
      * right. split; [| exact Hbad].
        intros Hall. apply Hnot. eapply Forall_impl; [exact Hall |]. simpl. intros; lia.
    + right. split.
      * intros Hall. apply Hshort. eapply Forall_impl; [exact Hall |]. simpl. intros; lia.
      * rewrite column_short; [done |].
        apply not_Forall_Exists in Hshort; [| intros row; apply _].
        eapply Exists_impl; [exact Hshort |]. simpl. intros; lia.
Qed.



(** What a successful load has established, whatever the input. *)
Lemma load_Ok_inv headers lines td :
  load (headers :: lines) = Ok td ->
  exists raw,
    raw_data lines = Ok raw /\
    Forall (fun row => 0 + length headers <= length row) raw /\
    build_table (enumerate_from 0 headers) raw ∅ = Ok td.
Proof.
  unfold load. destruct (raw_data lines) as [raw | e | c] eqn:Hraw; try done.
  simpl. unfold enumerate. intros Htd. exists raw. split; [done |].
  destruct (build_table_cases raw headers 0 ∅) as [[Hall _] | [_ Herr]].
  - apply Forall_forall. intros; lia.
  - done.
  - congruence.
Qed.

(** X2.  Whenever the loader returns a table, from a well-formed file or
    not: its keys are exactly the names of the header row; every column has
    one value per data row; and a header that does not occur again further
    right names the cells of its own position, read as floats, in row
    order. *)
Theorem load_table_shape (headers : list string) (lines : list (list string))
    (td : gmap string (list float)) :
  load (headers :: lines) = Ok td ->
  (forall col, is_Some (td !! col) <-> col ∈ headers) /\
  (forall col c, td !! col = Some c -> length c = length lines) /\
  (forall idx col, headers !! idx = Some col -> col ∉ drop (S idx) headers ->
     exists c, td !! col = Some c /\ cells_at lines idx c).
Proof.
  intros Hload. destruct (load_Ok_inv headers lines td Hload) as (raw & Hraw & Hlong & Htd).
  destruct (build_table_spec raw headers 0 ∅ Hlong) as (td' & Htd' & Hkeep & Hcol).
  assert (td' = td) as -> by congruence.
  assert (Hpos : forall idx col, headers !! idx = Some col -> col ∉ drop (S idx) headers ->
            exists c, td !! col = Some c /\ cells_at lines idx c).
  { intros idx col Hidx Hlast.
    destruct (Hcol idx col Hidx Hlast) as (c & Hc & Hcc).
    exists c. split; [done |]. by apply (cells_of_column lines raw). }
  assert (Hin : forall col, col ∈ headers -> exists c, td !! col = Some c /\ length c = length lines).
  { intros col Hcol'.
    destruct (last_occurrence col headers Hcol') as (i & Hi & Hlast).
    destruct (Hpos i col Hi Hlast) as (c & Hc & Hcells).
    exists c. split; [done |]. symmetry. exact (Forall2_length _ _ _ Hcells). }
  split; [| split; [| exact Hpos]].
  - intros col. split.
    + intros [c Hc]. destruct (decide (col ∈ headers)) as [| Hout]; [done |].
      rewrite (Hkeep col Hout) in Hc. by rewrite lookup_empty in Hc.
    + intros Hc. destruct (Hin col Hc) as (c & -> & _). by eexists.
  - intros col c Hc. destruct (decide (col ∈ headers)) as [Hc' | Hout].
    + destruct (Hin col Hc') as (c' & Hc'' & Hlen). congruence.
    + rewrite (Hkeep col Hout) in Hc. by rewrite lookup_empty in Hc.
Qed.

(** ** Cells beyond the last header *)

Lemma traverse_take {A B} (f : A -> result B) (l : list A) (ys : list B) (k : nat) :
  traverse f l = Ok ys -> traverse f (take k l) = Ok (take k ys).
Proof.
  rewrite !traverse_Ok. intros H. by apply Forall2_take.
Qed.

Lemma raw_data_take lines raw k :
  raw_data lines = Ok raw -> raw_data (take k <$> lines) = Ok (take k <$> raw).
Proof.
  unfold raw_data. rewrite !traverse_Ok. intros H.
  apply Forall2_fmap. eapply Forall2_impl; [exact H |].
  intros line row Hrow. by apply traverse_take.
Qed.

Lemma column_take raw idx k :
  idx < k -> column (take k <$> raw) idx = column raw idx.
Proof.
  intros Hlt. unfold column. induction raw as [| row raw IH]; [done |].
  rewrite fmap_cons. cbn [traverse]. rewrite IH. unfold index.
  by rewrite lookup_take_lt.
Qed.

Lemma build_table_take raw k hs : forall n d,
  n + length hs <= k ->
  build_table (enumerate_from n hs) (take k <$> raw) d =
  build_table (enumerate_from n hs) raw d.
Proof.
  induction hs as [| h hs IH]; intros n d Hk; [done |].
  simpl in *. rewrite column_take by lia.
  destruct (column raw n) as [c | e | c]; simpl; try done.
  apply IH. lia.
Qed.

(** X3.  Cells beyond the last header do not reach the table: when a file
    loads, the file cut to the width of its header row loads to the same
    table.  (The surplus cells are parsed all the same: the hypothesis that
    the file loads includes that they parse.) *)
Theorem load_ignores_surplus_cells (headers : list string) (lines : list (list string))
    (td : gmap string (list float)) :
  load (headers :: lines) = Ok td ->
  load (headers :: (take (length headers) <$> lines)) = Ok td.
Proof.
  intros Hload. destruct (load_Ok_inv headers lines td Hload) as (raw & Hraw & _ & Htd).
  unfold load. rewrite (raw_data_take lines raw (length headers) Hraw).
  cbn [rbind]. unfold enumerate. rewrite build_table_take by (simpl; lia). exact Htd.
Qed.

(** ** How the [try] block ends *)

Lemma enumerate_from_length {A} (l : list A) (start : nat) :
  length (enumerate_from start l) = length l.
Proof. revert start. induction l; intros; simpl; auto. Qed.

Lemma chart_delta_v_Ok args td time expended speed s0 :
  td !! "TimeSinceMark" = Some time -> td !! "DeltaVExpended" = Some expended ->
  td !! "SpeedOrbital" = Some speed ->
  length expended <= length speed -> speed !! 0 = Some s0 ->
  chart_delta_v args td =
    ([Subplot 2 (if verbose args then 3 else 2) 6;
      Plot time expended (Some "Δv Expended");
      Plot time (zip_with (fun dv so => dv - so + s0)%float expended speed) (Some "Δv Lost");
      Title "Delta-v Expenditure"; Xlabel "MET (s)"; Ylabel "Δv (m/s)";
      Legend "upper left"; Grid], Ok tt).
Proof.
  intros Htime Hexp Hspeed Hlen H0.
  pose proof (dv_lost_Ok td expended speed s0 Hexp Hspeed Hlen) as Hlost.
  unfold chart_delta_v, subplot, arrange_subplots, get, lift, emit, item, index.
  destruct (verbose args); cbn [bind app];
    repeat (first [rewrite Htime | rewrite Hexp | rewrite Hspeed
                  | rewrite H0 | rewrite Hlost]; cbn [bind app]);
    reflexivity.
Qed.

Lemma chart_delta_v_no_rows args td time expended :
  td !! "TimeSinceMark" = Some time -> td !! "DeltaVExpended" = Some expended ->
  td !! "SpeedOrbital" = Some [] ->
  chart_delta_v args td =
    ([Subplot 2 (if verbose args then 3 else 2) 6;
      Plot time expended (Some "Δv Expended")], Raised IndexError).
Proof.
  intros Htime Hexp Hspeed.
  unfold chart_delta_v, subplot, arrange_subplots, get, lift, emit, item, index.
  destruct (verbose args); cbn [bind app];
    repeat (first [rewrite Htime | rewrite Hexp | rewrite Hspeed]; cbn [bind app]);
    reflexivity.
Qed.

(** The three ways the [try] block can end on a table whose columns all
    have [n] values, as the loader builds it. *)
Lemma render_cases args td n :
  (forall col c, td !! col = Some c -> length c = n) ->
  (exists col, col ∈ required_columns (verbose args) /\ td !! col = None /\
               snd (render args td) = Raised KeyError) \/
  ((forall col, col ∈ required_columns (verbose args) -> is_Some (td !! col)) /\
   verbose args = true /\ n = 0 /\ snd (render args td) = Raised IndexError) \/
  ((forall col, col ∈ required_columns (verbose args) -> is_Some (td !! col)) /\
   (verbose args = true -> 0 < n) /\ snd (render args td) = Ok tt).
Proof.
  intros Hlen.
  destruct (decide (Forall (fun col => is_Some (td !! col))
                      (required_columns (verbose args)))) as [Hall | Hmiss].
  - rewrite Forall_forall in Hall. right.
    assert (Hbasic : forall col, col ∈ basic_columns -> is_Some (td !! col)).
    { intros col Hcol. apply Hall. unfold required_columns.
      destruct (verbose args); [apply elem_of_app; by left | done]. }
    destruct (verbose args) eqn:Hv.
    + destruct (Hall "TimeSinceMark" ltac:(in_list)) as [time Htime].
      destruct (Hall "AoA" ltac:(in_list)) as [aoa Haoa].
      destruct (Hall "DeltaVExpended" ltac:(in_list)) as [expended Hexp].
      destruct (Hall "SpeedOrbital" ltac:(in_list)) as [speed Hspeed].
      destruct (render_verbose args td time aoa Hv Hbasic Htime Haoa) as [before ->].
      cbn [snd]. pose proof (Hlen _ _ Hexp) as Hle. pose proof (Hlen _ _ Hspeed) as Hls.
      destruct speed as [| s0 speed'].
      * left. split; [done |]. split; [done |]. split; [by simpl in Hls |].
        by rewrite (chart_delta_v_no_rows args td time expended Htime Hexp Hspeed).
      * right. split; [done |]. split; [intros _; simpl in Hls; lia |].
        by rewrite (chart_delta_v_Ok args td time expended (s0 :: speed') s0
                      Htime Hexp Hspeed ltac:(lia) eq_refl).
    + right. split; [done |]. split; [done |].
      destruct (basic_charts_Ok args td Hbasic) as (t & _ & Hk).
      unfold render. rewrite Hv. by rewrite (Hk (fun _ => ret tt)).
  - left. apply not_Forall_Exists in Hmiss; [| intros col; apply _].
    apply Exists_exists in Hmiss as (col & Hcol & Hnone).
    assert (Hnone' : td !! col = None).
    { destruct (td !! col) eqn:E; [| done]. exfalso. apply Hnone. by eexists. }
    exists col. split; [done |]. split; [done |].
    by apply render_missing_column with col.
Qed.

Lemma load_cases rows :
  load rows = Raised StopIteration \/ load rows = Raised ValueError \/
  load rows = Raised IndexError \/
  exists headers lines td,
    rows = headers :: lines /\ load rows = Ok td /\
    forall col c, td !! col = Some c -> length c = length lines.
Proof.
  destruct rows as [| headers lines]; [by left |].
  unfold load. destruct (raw_data_cases lines) as [[raw Hraw] | ->]; [| by right; left].
  rewrite Hraw. cbn [rbind]. unfold enumerate.
  destruct (build_table_cases raw headers 0 ∅) as [[Hall [td Htd]] | [_ ->]].
  { apply Forall_forall. intros; lia. }
  - right. right. right. exists headers, lines, td. split; [done |]. split; [done |].
    destruct (build_table_spec raw headers 0 ∅ Hall) as (td' & Htd' & Hkeep & Hcol).
    assert (td' = td) as -> by congruence.
    intros col c Hc. destruct (decide (col ∈ headers)) as [Hin | Hout].
    + destruct (last_occurrence col headers Hin) as (i & Hi & Hlast).
      destruct (Hcol i col Hi Hlast) as (c' & Hc' & Hcc).
      assert (c' = c) as -> by congruence.
      apply traverse_length in Hcc. rewrite Hcc.
      apply raw_data_lengths in Hraw. symmetry. exact (Forall2_length _ _ _ Hraw).
    + rewrite (Hkeep col Hout) in Hc. by rewrite lookup_empty in Hc.
  - right. right. by left.
Qed.

Lemma main_rejected args :
  ~ args_accepted args ->
  main args =
    ([PrintUsage Stderr;
      Print Stderr (script_name +:+ ": error: argument --no-view: requires argument --out")],
     Exited 2).
Proof.
  unfold args_accepted. intros Hrej. unfold main, check_args.
  destruct (no_view args); [| tauto]. destruct (out args); [| done].
  exfalso. apply Hrej. by right.
Qed.

(** The five ways a run can go. *)
Lemma main_cases args :
  (~ args_accepted args /\
   main args =
     ([PrintUsage Stderr;
       Print Stderr (script_name +:+ ": error: argument --no-view: requires argument --out")],
      Exited 2)) \/
  (args_accepted args /\
   exists e, load (telemetry_rows args) = Raised e /\
             main args = (banner_events args, Raised e)) \/
  (args_accepted args /\
   exists td t col,
     load (telemetry_rows args) = Ok td /\ render args td = (t, Raised KeyError) /\
     col ∈ required_columns (verbose args) /\ td !! col = None /\
     main args =
       (banner_events args ++ setup_events args ++
        t ++ [Print Stdout missing_data_message], Exited 1)) \/
  (args_accepted args /\
   exists td t,
     load (telemetry_rows args) = Ok td /\ render args td = (t, Raised IndexError) /\
     (forall col, col ∈ required_columns (verbose args) -> is_Some (td !! col)) /\
     verbose args = true /\ length (telemetry_rows args) = 1 /\
     main args = (banner_events args ++ setup_events args ++ t, Raised IndexError)) \/
  (args_accepted args /\
   exists td t,
     load (telemetry_rows args) = Ok td /\ render args td = (t, Ok tt) /\
     (forall col, col ∈ required_columns (verbose args) -> is_Some (td !! col)) /\
     (verbose args = true -> 2 <= length (telemetry_rows args)) /\
     main args =
       (banner_events args ++ setup_events args ++
        t ++ SubplotsAdjust 0.5 0.3 :: fst (dispatch args) ++ [Print Stdout "Done"],
        Exited 0)).
Proof.
  destruct (decide (no_view args = false \/ out args <> None)) as [Hacc | Hrej].
  2: { left. split; [exact Hrej |]. by apply main_rejected. }
  right.
  destruct (load_cases (telemetry_rows args))
    as [Hl | [Hl | [Hl | (headers & lines & td & Hrows & Hl & Hlen)]]].
  1-3: left; split; [exact Hacc |]; eexists; split; [exact Hl |];
       by apply main_load_failed.
  right. rewrite (main_loaded args td Hacc Hl).
  destruct (render args td) as [t r] eqn:Hrender.
  destruct (render_cases args td (length lines) Hlen)
    as [(col & Hcol & Hnone & Hr) | [(Hall & Hv & Hn & Hr) | (Hall & Hn & Hr)]];
    rewrite Hrender in Hr; simpl in Hr; subst r.
  - left. split; [exact Hacc |]. exists td, t, col.
    by rewrite (draw_and_dispatch_KeyError args td t Hrender).
  - right. left. split; [exact Hacc |]. exists td, t.
    rewrite (draw_and_dispatch_uncaught args td t IndexError Hrender) by done.
    repeat split; try done. rewrite Hrows. simpl. lia.
  - right. right. split; [exact Hacc |]. exists td, t.
    rewrite (draw_and_dispatch_Ok args td t Hrender).
    repeat split; try done. intros Hv. specialize (Hn Hv). rewrite Hrows. simpl. lia.
Qed.

(** ** Exit codes and what failed runs leave undone *)



(** X6.  The input stream is closed exactly in the runs whose file loads,
    and then right after the two opening messages, before anything is
    drawn.  When the arguments are rejected or the loader raises, the
    script never closes it. *)
Theorem input_closed_after_load args :
  (args_accepted args -> (exists td, load (telemetry_rows args) = Ok td) ->
   fst (main args) !! 2 = Some CloseIn) /\
  (~ (args_accepted args /\ exists td, load (telemetry_rows args) = Ok td) ->
   Forall (fun ev => ev <> CloseIn) (fst (main args))).
Proof.
  split.
  - intros Hacc [td Hl]. by rewrite (main_loaded args td Hacc Hl).
  - intros Hnot.
    destruct (main_cases args)
      as [(Hrej & ->) | [(Hacc & e & Hl & ->) | [(Hacc & td & t & col & Hl & _)
         | [(Hacc & td & t & Hl & _) | (Hacc & td & t & Hl & _)]]]];
      try (exfalso; apply Hnot; split; [done | by exists td]).
    + repeat constructor; congruence.
    + unfold banner_events. cbn [fst]. repeat constructor; congruence.
Qed.

(** ** What the charts are given *)

Lemma Forall_bind_Ok {A B} (P : event -> Prop) (m : run A) (k : A -> run B) :
  Forall P (fst m) -> (forall a, snd m = Ok a -> Forall P (fst (k a))) ->
  Forall P (fst (bind m k)).
Proof.
  intros Hm Hk. destruct m as [t [a | e | c]]; simpl in *; try done.
  specialize (Hk a eq_refl). destruct (k a) as [t' r]. simpl in *.
  by apply Forall_app.
Qed.

Lemma get_Ok td key c : snd (get td key) = Ok c -> td !! key = Some c.
Proof. unfold get, lift, item. simpl. destruct (td !! key); congruence. Qed.

Lemma dv_lost_length td tan_vel lost :
  dv_lost td tan_vel = Ok lost ->
  exists expended, td !! "DeltaVExpended" = Some expended /\ length lost = length expended.
Proof.
  unfold dv_lost, item. destruct (td !! "DeltaVExpended") as [expended |]; [| done].
  cbn [rbind]. intros H. apply traverse_length in H.
  exists expended. split; [done |]. rewrite H. apply enumerate_from_length.
Qed.

(** Walks through a chart, keeping what each table lookup returned. *)
Ltac chart_events :=
  repeat (apply Forall_bind_Ok;
          [| let a := fresh "a" in let Ha := fresh "Ha" in intros a Ha]).

Lemma render_plots_match args td n :
  (forall col c, td !! col = Some c -> length c = n) ->
  Forall plot_series_match (fst (render args td)).
Proof.
  intros Hlen.
  assert (Hget : forall key c, snd (get td key) = Ok c -> length c = n).
  { intros key c Hc. apply get_Ok in Hc. by apply (Hlen key). }
  assert (Hlost : forall tan_vel lost, snd (lift (dv_lost td tan_vel)) = Ok lost -> length lost = n).
  { intros tan_vel lost Hl. simpl in Hl.
    destruct (dv_lost_length td tan_vel lost Hl) as (expended & Hexp & ->).
    by apply (Hlen "DeltaVExpended"). }
  unfold render, chart_launch_profile, chart_acceleration, chart_orbital_velocity,
    chart_dynamic_pressure, chart_angle_of_attack, chart_delta_v, subplot,
    arrange_subplots, decorate.
  destruct (verbose args); chart_events;
    repeat match goal with
           | H : snd (get td _) = Ok _ |- _ => apply Hget in H
           | H : snd (lift (dv_lost td _)) = Ok _ |- _ => apply Hlost in H
           end;
    simpl; repeat constructor; unfold plot_series_match, to_km;
    rewrite ?length_fmap, ?length_drop; congruence.
Qed.

(** X7.  In every run, each [plt.plot] call receives an x series and a y
    series of the same length: the columns of a loaded table are equally
    long, the kilometre conversion keeps the length, the angle-of-attack
    trim cuts both series alike, and the delta-v lost series has one value
    per expended sample. *)
Theorem plots_have_equal_lengths args :
  Forall plot_series_match (fst (main args)).
Proof.
  destruct (decide (no_view args = false \/ out args <> None)) as [Hacc | Hrej].
  2: { rewrite (main_rejected args Hrej). by repeat constructor. }
  destruct (load_cases (telemetry_rows args))
    as [Hl | [Hl | [Hl | (headers & lines & td & _ & Hl & Hlen)]]].
  1-3: rewrite (main_load_failed args _ Hacc Hl); by repeat constructor.
  rewrite (main_loaded args td Hacc Hl). cbn [fst].
  pose proof (render_plots_match args td (length lines) Hlen) as Hr.
  unfold banner_events, setup_events, draw_and_dispatch, dispatch.
  destruct (render args td) as [t [[] | [] | c]]; simpl in *;
    destruct (verbose args), (title_truthy (title args)), (out args), (no_view args);
    simpl; repeat (apply Forall_cons; split; [exact I |]);
    try (apply Forall_app_2; [exact Hr |]); by repeat constructor.
Qed.

(** X8.  Every [plt.subplot] call of a run names the grid of its mode, two
    rows by three columns in verbose mode and two by two otherwise, and a
    position between 1 and the number of cells of that grid. *)
Theorem subplots_fit_grid args :
  Forall (subplot_in_grid args) (fst (main args)).
Proof.
  unfold main, check_args, dispatch, render, chart_launch_profile, chart_acceleration,
    chart_orbital_velocity, chart_dynamic_pressure, chart_angle_of_attack, chart_delta_v,
    subplot, decorate, get, print, emit, lift, sys_exit, subplot_in_grid, arrange_subplots.
  destruct (verbose args); forall_events; try done; split; (reflexivity || lia).
Qed.

(** X9.  Normal mode reads the six basic columns and nothing else: two
    tables that agree on them give the same charts, whatever they hold
    under [AoA], [DeltaVExpended] or any other name. *)
Theorem normal_mode_reads_basic_columns args td td' :
  verbose args = false ->
  (forall col, col ∈ basic_columns -> td !! col = td' !! col) ->
  render args td = render args td'.
Proof.
  intros Hv Hsame.
  unfold render, chart_launch_profile, chart_acceleration, chart_orbital_velocity,
    chart_dynamic_pressure, get, item.
  rewrite Hv.
  rewrite (Hsame "DownRange" ltac:(in_list)), (Hsame "AltitudeASL" ltac:(in_list)),
    (Hsame "TimeSinceMark" ltac:(in_list)), (Hsame "Acceleration" ltac:(in_list)),
    (Hsame "SpeedOrbital" ltac:(in_list)), (Hsame "Q" ltac:(in_list)).
  reflexivity.
Qed.

(** ** The title and the messages *)

(** X10.  A non-empty [--title] is set exactly once, with font size 14, on
    the new figure: right after the input is closed and the figure is
    created, before the first chart; no later call sets a title of the
    figure again. *)
Theorem title_is_set_once args td t :
  args_accepted args -> load (telemetry_rows args) = Ok td ->
  title args = Some t -> t <> EmptyString ->
  exists rest,
    fst (main args) =
      banner_events args ++
      [CloseIn; if verbose args then Figure 14 6 else Figure 10 6; Suptitle t 14] ++ rest /\
    Forall (fun ev => is_suptitle ev = false) rest.
Proof.
  intros Hacc Hl Ht Hne. exists (fst (draw_and_dispatch args td)). split.
  - rewrite (main_loaded args td Hacc Hl). cbn [fst]. unfold setup_events.
    rewrite Ht. destruct t as [| c t']; [done |]. reflexivity.
  - unfold draw_and_dispatch, dispatch, print, emit, sys_exit.
    forall_events.
    all: try (eapply Forall_impl; [apply render_draws_only |];
              intros [] ?; simpl in *; congruence).
Qed.




(** ** Which exceptions escape, and which charts are drawn *)


Lemma render_Ok_charts args td :
  snd (render args td) = Ok tt ->
  subplots_of (fst (render args td)) =
    (if verbose args then [1; 2; 3; 4; 5; 6] else [1; 2; 3; 4])%Z /\
  titles_of (fst (render args td)) =
    ["Launch Profile"; "Acceleration"; "Orbital Velocity"; "Dynamic Pressure"] ++
    (if verbose args then ["Angle of Attack"; "Delta-v Expenditure"] else []).
Proof.
  unfold render, chart_launch_profile, chart_acceleration, chart_orbital_velocity,
    chart_dynamic_pressure, chart_angle_of_attack, chart_delta_v, subplot,
    arrange_subplots, decorate, get, lift, item, emit.
  destruct (verbose args);
    repeat (cbn [bind app fst snd];
            match goal with
            | |- context [match ?td' !! ?k with Some _ => _ | None => _ end] =>
                destruct (td' !! k)
            | |- context [index ?l 0] => destruct (index l 0)
            | |- context [dv_lost ?t ?v] => destruct (dv_lost t v)
            end);
    cbn [bind app fst snd]; intros H; try discriminate H; split; reflexivity.
Qed.

(** X14.  A run that ends with exit code 0 has drawn every chart of its
    mode exactly once, at positions 1 to 4 (1 to 6 in verbose mode) in
    this order: Launch Profile, Acceleration, Orbital Velocity, Dynamic
    Pressure and, in verbose mode, Angle of Attack and Delta-v
    Expenditure. *)
Theorem charts_in_order args :
  snd (main args) = Exited 0 ->
  subplots_of (fst (main args)) =
    (if verbose args then [1; 2; 3; 4; 5; 6] else [1; 2; 3; 4])%Z /\
  titles_of (fst (main args)) =
    ["Launch Profile"; "Acceleration"; "Orbital Velocity"; "Dynamic Pressure"] ++
    (if verbose args then ["Angle of Attack"; "Delta-v Expenditure"] else []).
Proof.
  destruct (main_cases args)
    as [(_ & ->) | [(_ & e' & _ & ->) | [(_ & td & t & col & _ & _ & _ & _ & ->)
       | [(_ & td & t & _ & _ & _ & _ & _ & ->) | (_ & td & t & _ & Hr & _ & _ & ->)]]]];
    cbn [fst snd]; intros Hexit; try discriminate Hexit.
  pose proof (render_Ok_charts args td) as Hcharts.
  rewrite Hr in Hcharts. destruct (Hcharts eq_refl) as [Hs Ht]. cbn [fst] in Hs, Ht.
  unfold subplots_of, titles_of in *.
  rewrite !omap_app, Hs, Ht.
  unfold banner_events, setup_events, dispatch.
  destruct (verbose args), (title_truthy (title args)), (out args), (no_view args);
    split; reflexivity.
Qed.

End Script.

(** * Division by a constant preserves the order

    The primitive division of floats is specified by [SFdiv]: an integer
    division of the mantissas ([SFdiv_core_binary]), which leaves the
    quotient, an exponent and the position of the remainder, followed by
    [binary_round_aux]: a right shift to the precision, rounding to nearest
    even, and a second shift for the carry.

    The proof follows the exact quotient through these steps.  On a scale
    where dividend and grid are integers, each step keeps the exact value
    inside the cell named by the current mantissa, with round and sticky
    bits that place it against the middle of the cell ([brackets]).  Two
    dividends in the right order then end in cells in the right order, and
    rounding and packing keep that order. *)

Open Scope Z_scope.

(** ** Digits *)

Lemma digits2_pos_size p : digits2_pos p = Pos.size p.
Proof. induction p; simpl; congruence. Qed.

Lemma digits2_pos_bounds p :
  2 ^ (Zpos (digits2_pos p) - 1) <= Zpos p < 2 ^ Zpos (digits2_pos p).
Proof.
  rewrite digits2_pos_size. split.
  - pose proof (Pos.size_le p) as H.
    assert (H' : 2 ^ Zpos (Pos.size p) <= 2 * Zpos p).
    { rewrite <- Pos2Z.inj_pow. change (2 * Z.pos p) with (Z.pos p~0). lia. }
    replace (Zpos (Pos.size p)) with (Zpos (Pos.size p) - 1 + 1) in H' by lia.
    rewrite Z.pow_add_r in H' by lia. lia.
  - pose proof (Pos.size_gt p) as H. rewrite <- Pos2Z.inj_pow. lia.
Qed.

Lemma Zdigits2_bounds q :
  0 < q -> 2 ^ (Zdigits2 q - 1) <= q < 2 ^ Zdigits2 q.
Proof. destruct q as [| p | p]; try lia. intros _. apply digits2_pos_bounds. Qed.

(** ** Shifting right keeps the exact value in the cell *)

Lemma shr_1_brackets C W mrs :
  0 < C -> brackets C W mrs -> brackets (2 * C) W (shr_1 mrs).
Proof.
  intros HC. destruct mrs as [M r s]. unfold brackets. simpl.
  intros (HM & HW & Hloc).
  destruct M as [| [p | p |] |]; try lia; destruct r, s; simpl in *; lia.
Qed.

Lemma iter_pos_brackets W p : forall C mrs,
  0 < C -> brackets C W mrs -> brackets (2 ^ Zpos p * C) W (SpecFloat.iter_pos shr_1 p mrs).
Proof.
  induction p as [p IH | p IH |]; intros C mrs HC H; simpl SpecFloat.iter_pos.
  - apply shr_1_brackets in H; [| done].
    apply IH in H; [| lia]. apply IH in H; [| nia].
    replace (2 ^ Z.pos p~1 * C) with (2 ^ Z.pos p * (2 ^ Z.pos p * (2 * C))); [done |].
    replace (Z.pos p~1) with (Z.pos p + Z.pos p + 1) by lia.
    rewrite !Z.pow_add_r by lia. change (2 ^ 1) with 2. ring.
  - apply IH in H; [| lia]. apply IH in H; [| nia].
    replace (2 ^ Z.pos p~0 * C) with (2 ^ Z.pos p * (2 ^ Z.pos p * C)); [done |].
    replace (Z.pos p~0) with (Z.pos p + Z.pos p) by lia.
    rewrite Z.pow_add_r by lia. ring.
  - apply shr_1_brackets in H; [| done]. by rewrite Z.pow_1_r.
Qed.

(** ** The parameters of binary64 *)

Lemma prec_value : prec = 53.
Proof. reflexivity. Qed.

Lemma emin_value : emin = -1074.
Proof. reflexivity. Qed.

Lemma emax_value : emax = 1024.
Proof. reflexivity. Qed.

(** Linear arithmetic that knows the parameters of binary64. *)
Ltac flia := pose proof prec_value; pose proof emin_value; pose proof emax_value; lia.

Lemma fexp_spec e : fexp prec emax e = Z.max (e - prec) emin.
Proof. reflexivity. Qed.

Lemma shr_positive W C mrs e n :
  0 < C -> 0 < n -> brackets C W mrs ->
  snd (shr mrs e n) = e + n /\ brackets (2 ^ n * C) W (fst (shr mrs e n)).
Proof.
  intros HC Hn H. destruct n as [| p | p]; try lia. simpl.
  split; [done |]. by apply iter_pos_brackets.
Qed.

Lemma shr_nonpositive mrs e n : n <= 0 -> shr mrs e n = (mrs, e).
Proof. intros Hn. destruct n as [| p | p]; try lia; done. Qed.

Lemma brackets_of_loc C W q l :
  0 <= q -> q * C <= W < (q + 1) * C ->
  match l with
  | loc_Exact => W = q * C
  | loc_Inexact Lt => q * C < W /\ 2 * W < (2 * q + 1) * C
  | loc_Inexact Eq => 2 * W = (2 * q + 1) * C
  | loc_Inexact Gt => (2 * q + 1) * C < 2 * W
  end ->
  brackets C W (shr_record_of_loc q l).
Proof. intros Hq HW Hl. unfold brackets. destruct l as [| []]; simpl; auto. Qed.

Lemma shr_m_of_loc q l : shr_m (shr_record_of_loc q l) = q.
Proof. by destruct l as [| []]. Qed.

(** ** Rounding to nearest even *)

Lemma round_nearest_even_bounds M l :
  M <= round_nearest_even M l <= M + 1.
Proof. destruct l as [| []]; simpl; try lia. destruct (Z.even M); lia. Qed.

(** Two values in the same cell of the grid round in the same order. *)
Lemma round_nearest_even_mono C Wa Wb ra rb :
  0 < C -> brackets C Wa ra -> brackets C Wb rb -> Wa <= Wb ->
  shr_m ra = shr_m rb ->
  round_nearest_even (shr_m ra) (loc_of_shr_record ra) <=
  round_nearest_even (shr_m rb) (loc_of_shr_record rb).
Proof.
  intros HC (_ & _ & Ha) (_ & _ & Hb) HW HM.
  destruct ra as [M ra sa], rb as [M' rb sb]. simpl in *. subst M'.
  destruct ra, sa, rb, sb; simpl; destruct (Z.even M); lia.
Qed.

(** The second shift of [binary_round_aux] renormalises a mantissa that
    rounding has carried to [2 ^ prec]. *)
Lemma second_shift sx M E :
  emin <= E -> 0 <= M <= 2 ^ prec ->
  (let '(mrs, e) := shr_fexp prec emax M E loc_Exact in
   match shr_m mrs with
   | 0 => S754_zero sx
   | Zpos m => if e <=? emax - prec then S754_finite sx m e else S754_infinity sx
   | Zneg _ => S754_nan
   end) = finish sx M E.
Proof.
  intros HE HM. unfold finish, shr_fexp. rewrite fexp_spec.
  destruct (Z.eqb_spec M (2 ^ prec)) as [-> | Hne].
  - change (Zdigits2 (2 ^ prec)) with 54.
    replace (Z.max (54 + E - prec) emin - E) with 1 by flia.
    reflexivity.
  - assert (Hn : Z.max (Zdigits2 M + E - prec) emin - E <= 0).
    { destruct (Z.eq_dec M 0) as [-> | Hpos]; [simpl; flia |].
      pose proof (Zdigits2_bounds M ltac:(lia)) as [Hlo _].
      assert (Zdigits2 M - 1 < prec); [| lia].
      apply (Z.pow_lt_mono_r_iff 2); [lia | flia | lia]. }
    rewrite shr_nonpositive by done. reflexivity.
Qed.

(** ** The order of packed results *)

Ltac compare_cases :=
  unfold SFleb, SFcompare;
  repeat match goal with
         | |- context [Z.compare ?a ?b] => destruct (Z.compare_spec a b)
         | |- context [Pos.compare_cont Eq ?a ?b] =>
             change (Pos.compare_cont Eq a b) with (Pos.compare a b);
             destruct (Pos.compare_spec a b)
         end;
  simpl; try reflexivity; try lia.

(** Among results of sign plus, then of sign minus. *)
Lemma SFleb_pack_pos Ma Ea Mb Eb :
  0 <= Ma -> 0 <= Mb ->
  Ma = 0 \/ (0 < Mb /\ (Ea < Eb \/ (Ea = Eb /\ Ma <= Mb))) ->
  SFleb (pack false Ma Ea) (pack false Mb Eb) = true.
Proof.
  intros Ha Hb H. unfold pack.
  destruct Ma as [| ma | ma], Mb as [| mb | mb]; try lia;
    destruct (Z.leb_spec Ea (emax - prec)), (Z.leb_spec Eb (emax - prec));
    compare_cases.
Qed.

Lemma SFleb_pack_neg Ma Ea Mb Eb :
  0 <= Ma -> 0 <= Mb ->
  Mb = 0 \/ (0 < Ma /\ (Eb < Ea \/ (Ea = Eb /\ Mb <= Ma))) ->
  SFleb (pack true Ma Ea) (pack true Mb Eb) = true.
Proof.
  intros Ha Hb H. unfold pack.
  destruct Ma as [| ma | ma], Mb as [| mb | mb]; try lia;
    destruct (Z.leb_spec Ea (emax - prec)), (Z.leb_spec Eb (emax - prec));
    compare_cases.
Qed.

Lemma pow_prec_split : 2 ^ prec = 2 * 2 ^ (prec - 1) /\ 0 < 2 ^ (prec - 1).
Proof. by vm_compute. Qed.

Lemma SFleb_finish_pos Ma Ea Mb Eb :
  below Ma Ea Mb Eb -> SFleb (finish false Ma Ea) (finish false Mb Eb) = true.
Proof.
  intros (Ha & Hb & H). pose proof pow_prec_split as [Hsplit Hpos].
  unfold finish.
  destruct (Z.eqb_spec Ma (2 ^ prec)), (Z.eqb_spec Mb (2 ^ prec));
    apply SFleb_pack_pos; lia.
Qed.

Lemma SFleb_finish_neg Ma Ea Mb Eb :
  below Ma Ea Mb Eb -> SFleb (finish true Mb Eb) (finish true Ma Ea) = true.
Proof.
  intros (Ha & Hb & H). pose proof pow_prec_split as [Hsplit Hpos].
  unfold finish.
  destruct (Z.eqb_spec Ma (2 ^ prec)), (Z.eqb_spec Mb (2 ^ prec));
    apply SFleb_pack_neg; lia.
Qed.

(** ** The quotient by a positive float *)

Section Division.

(** The divisor: a positive finite float [m2 * 2 ^ e2]. *)
Variable m2 : positive.
Variable e2 : Z.

Lemma cell_pos e : emin <= e -> 0 < cell m2 e.
Proof.
  intros He. unfold cell.
  assert (0 < 2 ^ (e - emin)) by (apply Z.pow_pos_nonneg; lia). nia.
Qed.

Lemma cell_shift e n : emin <= e -> 0 <= n -> cell m2 (e + n) = 2 ^ n * cell m2 e.
Proof.
  intros He Hn. unfold cell.
  replace (e + n - emin) with (n + (e - emin)) by lia.
  rewrite Z.pow_add_r by lia. ring.
Qed.

(** The position of the remainder [r] against half of the divisor. *)
Lemma new_location_spec r :
  0 <= r < Zpos m2 ->
  match new_location (Zpos m2) r with
  | loc_Exact => r = 0
  | loc_Inexact Lt => 0 < r /\ 2 * r < Zpos m2
  | loc_Inexact Eq => 2 * r = Zpos m2
  | loc_Inexact Gt => Zpos m2 < 2 * r
  end.
Proof.
  intros Hr. unfold new_location, new_location_even, new_location_odd.
  destruct (Z.even (Zpos m2)) eqn:Heven.
  - destruct (Z.eqb_spec r 0) as [-> | Hne]; [done |].
    destruct (Z.compare_spec (2 * r) (Zpos m2)); lia.
  - destruct (Z.eqb_spec r 0) as [-> | Hne]; [done |].
    assert (Hodd : Z.odd (Zpos m2) = true) by (rewrite <- Z.negb_even, Heven; done).
    apply Z.odd_spec in Hodd as [k Hk].
    destruct (Z.compare_spec (2 * r + 1) (Zpos m2)); lia.
Qed.

(** The integer division leaves the exact quotient in the cell of its
    quotient [q], at an exponent not below the smallest one; above the
    smallest exponent [q] has at least [prec] digits. *)
Lemma div_core_brackets m1 e1 q e' l :
  emin <= e1 - e2 ->
  SFdiv_core_binary prec emax (Zpos m1) e1 (Zpos m2) e2 = (q, e', l) ->
  emin <= e' /\
  brackets (cell m2 e') (scaled e2 m1 e1) (shr_record_of_loc q l) /\
  (emin < e' -> 2 ^ (prec - 1) <= q).
Proof.
  intros He Hdiv. unfold SFdiv_core_binary in Hdiv. cbv zeta in Hdiv.
  set (d1 := Zdigits2 (Zpos m1)) in *. set (d2 := Zdigits2 (Zpos m2)) in *.
  set (ee := Z.min (fexp prec emax (d1 + e1 - (d2 + e2))) (e1 - e2)) in *.
  set (s := e1 - e2 - ee) in *.
  assert (Hfexp : fexp prec emax (d1 + e1 - (d2 + e2)) =
                  Z.max (d1 + e1 - (d2 + e2) - prec) emin) by reflexivity.
  assert (Hee : emin <= ee <= e1 - e2) by lia.
  assert (Hs : 0 <= s) by lia.
  assert (Hm' : match s with
                | Zpos _ => Z.shiftl (Zpos m1) s
                | Z0 => Zpos m1
                | Zneg _ => 0
                end = Zpos m1 * 2 ^ s).
  { destruct s as [| p | p] eqn:Hsv; try lia.
    rewrite Z.shiftl_mul_pow2 by lia. done. }
  rewrite Hm' in Hdiv.
  pose proof (Z_div_mod (Zpos m1 * 2 ^ s) (Zpos m2) ltac:(lia)) as Hdm.
  destruct (Z.div_eucl (Zpos m1 * 2 ^ s) (Zpos m2)) as [q0 r].
  injection Hdiv as <- <- <-. destruct Hdm as [Hdm Hr].
  assert (HP : 0 < 2 ^ (ee - emin)) by (apply Z.pow_pos_nonneg; lia).
  assert (H2s : 0 < 2 ^ s) by (apply Z.pow_pos_nonneg; lia).
  assert (HW : scaled e2 m1 e1 = q0 * cell m2 ee + r * 2 ^ (ee - emin)).
  { unfold scaled, cell. replace (e1 - e2 - emin) with (s + (ee - emin)) by lia.
    rewrite Z.pow_add_r by lia. rewrite Z.mul_assoc, Hdm. ring. }
  assert (Hq0 : 0 <= q0) by nia.
  split; [lia |]. split.
  - pose proof (new_location_spec r Hr) as Hloc.
    apply brackets_of_loc; [done | |].
    + rewrite HW. unfold cell. nia.
    + rewrite HW. unfold cell.
      destruct (new_location (Zpos m2) r) as [| []]; nia.
  - intros Hgt.
    assert (He' : ee <= d1 + e1 - (d2 + e2) - prec) by lia.
    pose proof (Zdigits2_bounds (Zpos m1) ltac:(lia)) as [Hd1 _]. fold d1 in Hd1.
    pose proof (Zdigits2_bounds (Zpos m2) ltac:(lia)) as [_ Hd2]. fold d2 in Hd2.
    assert (Hd1pos : 1 <= d1) by (unfold d1; simpl; lia).
    assert (Hd2pos : 1 <= d2) by (unfold d2; simpl; lia).
    assert (Hbig : 2 ^ (prec - 1) * 2 ^ d2 <= Zpos m1 * 2 ^ s).
    { rewrite <- Z.pow_add_r by (rewrite ?prec_value; lia).
      transitivity (2 ^ (d1 - 1) * 2 ^ s); [| nia].
      rewrite <- Z.pow_add_r by lia. apply Z.pow_le_mono_r; lia. }
    assert (Hp : 0 < 2 ^ (prec - 1)) by (apply Z.pow_pos_nonneg; rewrite ?prec_value; lia).
    nia.
Qed.

(** The first shift brings the mantissa to the precision. *)
Lemma first_shift W q e' l mrs1 E1 :
  emin <= e' ->
  brackets (cell m2 e') W (shr_record_of_loc q l) ->
  (emin < e' -> 2 ^ (prec - 1) <= q) ->
  shr_fexp prec emax q e' l = (mrs1, E1) ->
  emin <= E1 /\ brackets (cell m2 E1) W mrs1 /\
  shr_m mrs1 < 2 ^ prec /\ (emin < E1 -> 2 ^ (prec - 1) <= shr_m mrs1).
Proof.
  intros He' Hb Hnorm Hshr. unfold shr_fexp in Hshr.
  rewrite fexp_spec in Hshr.
  assert (Hq : 0 <= q).
  { destruct Hb as [Hq _]. by rewrite shr_m_of_loc in Hq. }
  set (dq := Zdigits2 q) in *.
  destruct (Z.le_gt_cases (Z.max (dq + e' - prec) emin - e') 0) as [Hn | Hn].
  - rewrite shr_nonpositive in Hshr by done. injection Hshr as <- <-.
    rewrite shr_m_of_loc. split; [done |]. split; [done |]. split; [| done].
    destruct (Z.eq_dec q 0) as [-> | Hq0]; [by apply Z.pow_pos_nonneg |].
    pose proof (Zdigits2_bounds q ltac:(lia)) as [_ Hlt]. fold dq in Hlt.
    eapply Z.lt_le_trans; [exact Hlt |]. apply Z.pow_le_mono_r; lia.
  - assert (Hn1 : Z.max (dq + e' - prec) emin - e' = dq - prec) by lia.
    rewrite Hn1 in Hshr, Hn.
    pose proof (cell_pos e' He') as HC.
    destruct (shr_positive W (cell m2 e') (shr_record_of_loc q l) e' (dq - prec) HC Hn Hb)
      as [HE Hb1].
    rewrite Hshr in HE, Hb1. simpl in HE, Hb1. subst E1.
    rewrite <- cell_shift in Hb1 by lia.
    split; [lia |]. split; [done |].
    assert (Hq0 : 0 < q).
    { destruct (Z.eq_dec q 0) as [-> | ?]; [| lia]. unfold dq in Hn. simpl in Hn.
      rewrite prec_value in Hn. lia. }
    pose proof (Zdigits2_bounds q Hq0) as [Hlo Hhi]. fold dq in Hlo, Hhi.
    destruct Hb as (_ & HbW & _). rewrite shr_m_of_loc in HbW.
    destruct Hb1 as (HM1 & Hb1W & _).
    rewrite cell_shift in Hb1W by lia.
    set (M1 := shr_m mrs1) in *. set (n := dq - prec) in *.
    set (C0 := cell m2 e') in *.
    assert (H2n : 0 < 2 ^ n) by (apply Z.pow_pos_nonneg; lia).
    assert (Hdq : 2 ^ dq = 2 ^ n * 2 ^ prec).
    { rewrite <- Z.pow_add_r by (rewrite ?prec_value; lia). f_equal. lia. }
    assert (Hdq1 : 2 ^ (dq - 1) = 2 ^ n * 2 ^ (prec - 1)).
    { rewrite <- Z.pow_add_r by (rewrite ?prec_value; lia). f_equal. lia. }
    assert (Hup : M1 * 2 ^ n < q + 1) by nia.
    assert (Hdown : q < (M1 + 1) * 2 ^ n) by nia.
    split; [| intros _]; nia.
Qed.

(** Dividends in order have their rounded quotients in order. *)
Lemma quotient_cell_below Wa ra Ea Wb rb Eb :
  quotient_cell m2 Wa ra Ea -> quotient_cell m2 Wb rb Eb -> Wa <= Wb ->
  below (rounded ra) Ea (rounded rb) Eb.
Proof.
  intros (HEa & Hba & Hua & Hna) (HEb & Hbb & Hub & Hnb) HW.
  pose proof pow_prec_split as [Hsplit Hpos].
  pose proof (round_nearest_even_bounds (shr_m ra) (loc_of_shr_record ra)) as Hra.
  pose proof (round_nearest_even_bounds (shr_m rb) (loc_of_shr_record rb)) as Hrb.
  pose proof Hba as (HMa & HWa & _). pose proof Hbb as (HMb & HWb & _).
  unfold below, rounded. split; [lia |]. split; [lia |].
  pose proof (cell_pos Ea HEa) as HCa. pose proof (cell_pos Eb HEb) as HCb.
  destruct (Z.lt_trichotomy Ea Eb) as [Hlt | [Heq | Hgt]].
  - right. split; [done |]. specialize (Hnb ltac:(lia)). lia.
  - left. split; [done |]. subst Eb.
    destruct (Z.eq_dec (shr_m ra) (shr_m rb)) as [HM | HM].
    + by apply (round_nearest_even_mono (cell m2 Ea) Wa Wb).
    + assert (shr_m ra < shr_m rb) by nia. lia.
  - exfalso. specialize (Hna ltac:(lia)).
    assert (Hcell : cell m2 Ea = 2 ^ (Ea - Eb) * cell m2 Eb).
    { rewrite <- cell_shift by lia. f_equal. lia. }
    assert (H2 : 2 <= 2 ^ (Ea - Eb)).
    { change 2 with (2 ^ 1) at 1. apply Z.pow_le_mono_r; lia. }
    nia.
Qed.

(** The quotient of a finite float, as the rounding of its cell. *)
Lemma SFdiv_finite sx m1 e1 :
  emin <= e1 - e2 ->
  exists mrs E,
    quotient_cell m2 (scaled e2 m1 e1) mrs E /\
    SFdiv prec emax (S754_finite sx m1 e1) (S754_finite false m2 e2) =
      finish sx (rounded mrs) E.
Proof.
  intros He. unfold SFdiv.
  destruct (SFdiv_core_binary prec emax (Zpos m1) e1 (Zpos m2) e2) as [[q e'] l] eqn:Hcore.
  destruct (div_core_brackets m1 e1 q e' l He Hcore) as (He' & Hb & Hnorm).
  unfold binary_round_aux.
  destruct (shr_fexp prec emax q e' l) as [mrs1 E1] eqn:Hs1.
  destruct (first_shift (scaled e2 m1 e1) q e' l mrs1 E1 He' Hb Hnorm Hs1)
    as (HE1 & Hb1 & Hu1 & Hn1).
  exists mrs1, E1. split; [exact (conj HE1 (conj Hb1 (conj Hu1 Hn1))) |].
  rewrite xorb_false_r. apply second_shift; [done |].
  pose proof (round_nearest_even_bounds (shr_m mrs1) (loc_of_shr_record mrs1)).
  destruct Hb1 as (HM1 & _). unfold rounded. lia.
Qed.

(** A valid mantissa fits the precision and is normal above the smallest
    exponent. *)
Lemma bounded_spec m e :
  bounded prec emax m e = true ->
  emin <= e /\ Zpos m < 2 ^ prec /\ (emin < e -> 2 ^ (prec - 1) <= Zpos m).
Proof.
  unfold bounded, canonical_mantissa. rewrite fexp_spec.
  intros H. apply andb_prop in H as [Hc _]. apply Z.eqb_eq in Hc.
  pose proof (digits2_pos_bounds m) as [Hlo Hhi].
  split; [lia |]. split.
  - eapply Z.lt_le_trans; [exact Hhi |]. apply Z.pow_le_mono_r; lia.
  - intros Hlt. replace (Zpos (digits2_pos m)) with prec in Hlo by lia. done.
Qed.

(** The order of valid mantissa-exponent pairs is the order of the values. *)
Lemma scaled_mono m1 e1 m1' e1' :
  e2 <= 0 ->
  bounded prec emax m1 e1 = true -> bounded prec emax m1' e1' = true ->
  e1 < e1' \/ (e1 = e1' /\ (m1 <= m1')%positive) ->
  scaled e2 m1 e1 <= scaled e2 m1' e1'.
Proof.
  intros He2 H1 H1' Hle. unfold scaled.
  apply bounded_spec in H1 as (He1 & Hu1 & _).
  apply bounded_spec in H1' as (He1' & _ & Hn1').
  pose proof pow_prec_split as [Hsplit Hpos].
  assert (HP : 0 < 2 ^ (e1 - e2 - emin)) by (apply Z.pow_pos_nonneg; lia).
  destruct Hle as [Hlt | [-> Hm]]; [| nia].
  specialize (Hn1' ltac:(lia)).
  assert (Hpow : 2 * 2 ^ (e1 - e2 - emin) <= 2 ^ (e1' - e2 - emin)).
  { change 2 with (2 ^ 1) at 1. rewrite <- Z.pow_add_r by lia.
    apply Z.pow_le_mono_r; lia. }
  nia.
Qed.

(** A packed result is a zero, a finite float or an infinity of its sign. *)
Lemma finish_shape sx M E :
  0 <= M ->
  finish sx M E = S754_zero sx \/
  (exists m e, finish sx M E = S754_finite sx m e) \/
  finish sx M E = S754_infinity sx.
Proof.
  intros HM. unfold finish, pack.
  destruct (M =? 2 ^ prec).
  - change (2 ^ (prec - 1)) with 4503599627370496.
    destruct (E + 1 <=? emax - prec); eauto.
  - destruct M as [| m | m]; try lia; [by left |].
    destruct (E <=? emax - prec); eauto.
Qed.

Lemma rounded_nonneg W mrs E : quotient_cell m2 W mrs E -> 0 <= rounded mrs.
Proof.
  intros (_ & (HM & _) & _). unfold rounded.
  pose proof (round_nearest_even_bounds (shr_m mrs) (loc_of_shr_record mrs)). lia.
Qed.

(** The quotient by a normal divisor that is at least 2 has a smaller
    exponent than the dividend: it cannot overflow. *)
Lemma quotient_exponent_bound m1 e1 mrs E :
  2 ^ (prec - 1) <= Zpos m2 -> 2 - prec <= e2 -> e2 <= 0 ->
  bounded prec emax m1 e1 = true ->
  quotient_cell m2 (scaled e2 m1 e1) mrs E ->
  E + 1 <= emax - prec.
Proof.
  intros Hm2 He2 He2' Hb (HE & (HM & HW & _) & _ & Hnorm).
  pose proof Hb as Hb'. apply bounded_spec in Hb' as (He1 & Hu1 & _).
  apply andb_prop in Hb as [_ Hmax]. apply Z.leb_le in Hmax.
  destruct (Z.eq_dec E emin) as [-> | Hne]; [flia |].
  specialize (Hnorm ltac:(lia)).
  pose proof pow_prec_split as [Hsplit Hpos].
  unfold cell, scaled in HW.
  set (A := 2 ^ (prec - 1)) in *.
  assert (HPE : 0 < 2 ^ (E - emin)) by (apply Z.pow_pos_nonneg; lia).
  assert (HP1 : 0 < 2 ^ (e1 - e2 - emin)) by (apply Z.pow_pos_nonneg; lia).
  assert (Hlt : A * 2 ^ (E - emin) < 2 * 2 ^ (e1 - e2 - emin)).
  { assert (H1 : A * A <= shr_m mrs * Zpos m2) by nia.
    assert (H2 : A * A * 2 ^ (E - emin) <= shr_m mrs * Zpos m2 * 2 ^ (E - emin))
      by (apply Z.mul_le_mono_nonneg_r; lia).
    assert (H3 : Zpos m1 * 2 ^ (e1 - e2 - emin) < 2 * A * 2 ^ (e1 - e2 - emin))
      by (apply Z.mul_lt_mono_pos_r; lia).
    assert (H4 : A * (A * 2 ^ (E - emin)) < A * (2 * 2 ^ (e1 - e2 - emin))) by lia.
    by apply Z.mul_lt_mono_pos_l in H4. }
  unfold A in Hlt. change 2 with (2 ^ 1) in Hlt at 3.
  rewrite <- !Z.pow_add_r in Hlt by flia.
  apply Z.pow_lt_mono_r_iff in Hlt; flia.
Qed.

Lemma finish_no_overflow sx M E :
  0 <= M -> E + 1 <= emax - prec ->
  finish sx M E = S754_zero sx \/ exists m e, finish sx M E = S754_finite sx m e.
Proof.
  intros HM HE. unfold finish, pack.
  destruct (M =? 2 ^ prec).
  - change (2 ^ (prec - 1)) with 4503599627370496.
    destruct (Z.leb_spec (E + 1) (emax - prec)); [eauto | lia].
  - destruct M as [| m | m]; try lia; [by left |].
    destruct (Z.leb_spec E (emax - prec)); [eauto | lia].
Qed.

(** Division by a positive float below [2 ^ prec] preserves the order. *)
Lemma SFdiv_mono x y :
  e2 <= 0 ->
  valid_binary x = true -> valid_binary y = true ->
  SFleb x y = true ->
  SFleb (SFdiv prec emax x (S754_finite false m2 e2))
        (SFdiv prec emax y (S754_finite false m2 e2)) = true.
Proof.
  intros He2 Hx Hy Hle.
  assert (Hfin : forall s m e, bounded prec emax m e = true ->
            exists mrs E,
              quotient_cell m2 (scaled e2 m e) mrs E /\
              SFdiv prec emax (S754_finite s m e) (S754_finite false m2 e2) =
                finish s (rounded mrs) E).
  { intros s m e Hb. apply SFdiv_finite.
    apply bounded_spec in Hb as (He & _). lia. }
  destruct x as [sx | sx | | sx mx ex], y as [sy | sy | | sy my ey];
    try discriminate Hle; simpl in Hx, Hy;
    try (destruct (Hfin sx mx ex Hx) as (ra & Ea & Hca & ->);
         pose proof (rounded_nonneg _ _ _ Hca) as Hra);
    try (destruct (Hfin sy my ey Hy) as (rb & Eb & Hcb & ->);
         pose proof (rounded_nonneg _ _ _ Hcb) as Hrb).
  all: try (destruct sx, sy; try discriminate Hle; reflexivity).
  all: try (destruct (finish_shape sy (rounded rb) Eb Hrb) as [-> | [(m & e & ->) | ->]];
            destruct sx, sy; try discriminate Hle; reflexivity).
  all: try (destruct (finish_shape sx (rounded ra) Ea Hra) as [-> | [(m & e & ->) | ->]];
            destruct sx, sy; try discriminate Hle; reflexivity).
  destruct sx, sy; try discriminate Hle.
  - apply SFleb_finish_neg. apply (quotient_cell_below (scaled e2 my ey) _ _ (scaled e2 mx ex)); try done.
    apply scaled_mono; try done.
    revert Hle. unfold SFleb, SFcompare.
    destruct (Z.compare_spec ex ey); try discriminate; try lia.
    change (Pos.compare_cont Eq mx my) with (Pos.compare mx my).
    destruct (Pos.compare_spec mx my); simpl; try discriminate; lia.
  - destruct (finish_shape true (rounded ra) Ea Hra) as [-> | [(m & e & ->) | ->]];
      destruct (finish_shape false (rounded rb) Eb Hrb) as [-> | [(m' & e' & ->) | ->]];
      reflexivity.
  - apply SFleb_finish_pos. apply (quotient_cell_below (scaled e2 mx ex) _ _ (scaled e2 my ey)); try done.
    apply scaled_mono; try done.
    revert Hle. unfold SFleb, SFcompare.
    destruct (Z.compare_spec ex ey); try discriminate; try lia.
    change (Pos.compare_cont Eq mx my) with (Pos.compare mx my).
    destruct (Pos.compare_spec mx my); simpl; try discriminate; lia.
Qed.

End Division.

(** Division of binary64 numbers by a positive constant below [2 ^ 53]
    preserves [<=]. *)
Lemma div_by_constant_mono (c a b : float) m2 e2 :
  Prim2SF c = S754_finite false m2 e2 -> e2 <= 0 ->
  (a <=? b)%float = true -> (a / c <=? b / c)%float = true.
Proof.
  intros Hc He2. rewrite !leb_spec, !div_spec, Hc.
  apply SFdiv_mono; [done | apply Prim2SF_valid | apply Prim2SF_valid].
Qed.

(** The constant of the script: 1000 is [8796093022208000 * 2 ^ -43]. *)
Lemma div_1000_mono (a b : float) :
  (a <=? b)%float = true -> (a / 1000 <=? b / 1000)%float = true.
Proof. apply (div_by_constant_mono 1000 a b 8796093022208000 (-43)); [reflexivity | lia]. Qed.

(** Division by a normal constant between 2 and [2 ^ 53] keeps numbers
    numbers, and infinities and NaN what they are. *)
Lemma div_by_constant_finite (c x : float) m2 e2 :
  Prim2SF c = S754_finite false m2 e2 ->
  2 ^ (prec - 1) <= Zpos m2 -> 2 - prec <= e2 -> e2 <= 0 ->
  is_finite_sample (x / c) = is_finite_sample x.
Proof.
  intros Hc Hm2 He2 He2'. unfold is_finite_sample. rewrite div_spec, Hc.
  pose proof (Prim2SF_valid x) as Hv.
  destruct (Prim2SF x) as [sx | sx | | sx mx ex]; try reflexivity.
  simpl in Hv.
  destruct (SFdiv_finite m2 e2 sx mx ex) as (mrs & E & Hcell & Heq).
  { apply bounded_spec in Hv as (He & _). lia. }
  unfold SF64div. rewrite Heq.
  pose proof (quotient_exponent_bound m2 e2 mx ex mrs E Hm2 He2 He2' Hv Hcell) as HE.
  destruct (finish_no_overflow sx (rounded mrs) E (rounded_nonneg m2 _ _ _ Hcell) HE)
    as [-> | (m & e & ->)]; reflexivity.
Qed.

(** X12.  The kilometre conversion cannot overflow: a sample that is a
    number (a zero or a finite float) stays one when divided by 1000, and
    an infinity or a NaN stays what it is; so a series of finite samples
    converts to a series of finite values. *)
Theorem to_km_keeps_finite :
  (forall x : float, is_finite_sample (x / 1000) = is_finite_sample x) /\
  (forall xs : list float,
     Forall (fun x => is_finite_sample x = true) xs ->
     Forall (fun x => is_finite_sample x = true) (to_km xs)).
Proof.
  assert (H : forall x : float, is_finite_sample (x / 1000) = is_finite_sample x).
  { intros x. apply (div_by_constant_finite 1000 x 8796093022208000 (-43));
      [reflexivity | by vm_compute | by vm_compute | lia]. }
  split; [exact H |].
  intros xs Hxs. unfold to_km. apply Forall_fmap.
  eapply Forall_impl; [exact Hxs |]. intros x Hx. simpl. by rewrite H.
Qed.

Close Scope Z_scope.

(** * The kilometre conversion *)

(** C6.  The kilometre conversion of the Launch Profile chart (both axes)
    and of the Dynamic Pressure chart (the altitude axis) is [to_km]: the
    plotted series has one value per sample, the value at index [i] being
    the sample at [i] divided once by 1000 in binary64 arithmetic.  The
    conversion preserves the order of samples: [a <= b] implies
    [a / 1000 <= b / 1000], for the IEEE comparison and the correctly
    rounded division. *)
Theorem km_conversion args td down_range altitude q :
  td !! "DownRange" = Some down_range ->
  td !! "AltitudeASL" = Some altitude ->
  td !! "Q" = Some q ->
  Plot (to_km down_range) (to_km altitude) None ∈ fst (chart_launch_profile args td) /\
  Plot (to_km altitude) q None ∈ fst (chart_dynamic_pressure args td) /\
  (forall xs, length (to_km xs) = length xs) /\
  (forall xs i x, xs !! i = Some x -> to_km xs !! i = Some (x / 1000)%float) /\
  (forall a b, (a <=? b)%float = true -> (a / 1000 <=? b / 1000)%float = true) /\
  (forall xs i j a b,
     xs !! i = Some a -> xs !! j = Some b -> (a <=? b)%float = true ->
     exists a' b',
       to_km xs !! i = Some a' /\ to_km xs !! j = Some b' /\ (a' <=? b')%float = true).
Proof.
  intros Hdr Halt Hq.
  assert (Hat : forall xs i x, xs !! i = Some x -> to_km xs !! i = Some (x / 1000)%float).
  { intros xs i x Hx. unfold to_km. by rewrite list_lookup_fmap, Hx. }
  split; [| split; [| split; [| split; [| split]]]].
  - rewrite (chart_launch_profile_Ok args td _ _ Hdr Halt). in_list.
  - rewrite (chart_dynamic_pressure_Ok args td _ _ Halt Hq). in_list.
  - intros xs. unfold to_km. apply length_fmap.
  - exact Hat.
  - exact div_1000_mono.
  - intros xs i j a b Ha Hb Hle.
    exists (a / 1000)%float, (b / 1000)%float.
    split; [by apply Hat |]. split; [by apply Hat |]. by apply div_1000_mono.
Qed.

(** * The script on sample files *)

Lemma no_view_requires_out_witness :
  exit_status
    (snd (main decimal_float "ksp-telemetry.py"
            (sample_args (sample_headers :: sample_lines) None false None true))) = 2%Z.
Proof.
  apply (no_view_requires_out decimal_float "ksp-telemetry.py"
           (sample_args (sample_headers :: sample_lines) None false None true));
    reflexivity.
Defined.

Lemma empty_title_is_no_title_witness :
  main decimal_float "ksp-telemetry.py"
    (sample_args (sample_headers :: sample_lines) (Some EmptyString) true None false) =
  main decimal_float "ksp-telemetry.py"
    (sample_args (sample_headers :: sample_lines) None true None false).
Proof.
  apply (empty_title_is_no_title decimal_float "ksp-telemetry.py"
           (sample_args (sample_headers :: sample_lines) (Some EmptyString) true None false)).
  reflexivity.
Defined.

Lemma load_sample : load decimal_float (sample_headers :: sample_lines) = Ok sample_table.
Proof. vm_cast_no_check (eq_refl (Ok sample_table)). Qed.

Lemma load_no_q : load decimal_float no_q_rows = Ok no_q_table.
Proof. vm_cast_no_check (eq_refl (Ok no_q_table)). Qed.

Lemma missing_column_exit_witness :
  let args := sample_args no_q_rows None false (Some "result.png") true in
  snd (main decimal_float "ksp-telemetry.py" args) = Exited 1 /\
  last (fst (main decimal_float "ksp-telemetry.py" args)) =
    Some (Print Stdout missing_data_message) /\
  Forall (fun ev => on_stderr ev = false) (fst (main decimal_float "ksp-telemetry.py" args)).
Proof.
  intros args.
  destruct (missing_column_exit decimal_float "ksp-telemetry.py" args no_q_table "Q")
    as (_ & Hexit & Hlast & Hout & _).
  - right. discriminate.
  - exact load_no_q.
  - in_list.
  - reflexivity.
  - auto.
Defined.

Lemma load_columns_witness :
  exists td, load decimal_float (sample_headers :: sample_lines) = Ok td /\
             forall col c, td !! col = Some c -> length c = 5.
Proof.
  destruct (load_columns decimal_float (sample_headers :: sample_lines)
              sample_lines sample_headers eq_refl)
    as (td & Hload & _ & _ & Hlen & _).
  - unfold well_formed_line, sample_lines, sample_headers.
    repeat constructor; vm_compute; eauto.
  - exists td. split; [exact Hload | exact Hlen].
Defined.

(** C3, as stated, fails on a file with a repeated column name: the table
    keeps one column under that name, the one further right, so the header
    at the first position does not name the cells of the first position. *)
Lemma repeated_header_counterexample :
  well_formed decimal_float twin_rows /\
  exists td, load decimal_float twin_rows = Ok td /\
             td !! "A" = Some [2%float] /\
             ~ positional_columns decimal_float twin_rows td.
Proof.
  split.
  - exists ["A"; "A"], [["1"; "2"]]. split; [reflexivity |].
    repeat constructor; vm_compute; eauto.
  - exists (<["A" := [2%float]]> ∅). split; [| split].
    + vm_cast_no_check (eq_refl (Ok (<["A" := [2%float]]> (∅ : gmap string (list float))))).
    + reflexivity.
    + intros Hpos.
      destruct (Hpos ["A"; "A"] [["1"; "2"]] 0 "A" eq_refl eq_refl) as (c & Hc & Hcells).
      rewrite lookup_insert_eq in Hc. injection Hc as <-.
      inversion Hcells as [| ? ? ? ? (cell & Hcell & Hparse) _]; subst.
      injection Hcell as <-. vm_compute in Hparse. discriminate Hparse.
Qed.

Lemma non_numeric_cell_is_fatal_witness :
  exit_status
    (snd (main decimal_float "ksp-telemetry.py"
            (sample_args [["A"; "B"]; ["1"; "2"]; ["3"; EmptyString]] None false None false)))
  <> 0%Z.
Proof.
  apply (non_numeric_cell_is_fatal decimal_float "ksp-telemetry.py"
           (sample_args [["A"; "B"]; ["1"; "2"]; ["3"; EmptyString]] None false None false)
           ["A"; "B"] [["1"; "2"]; ["3"; EmptyString]] ["3"; EmptyString] EmptyString).
  - left. reflexivity.
  - reflexivity.
  - in_list.
  - in_list.
  - reflexivity.
Defined.

Lemma verbose_needs_a_row_witness :
  snd (main decimal_float "ksp-telemetry.py"
         (sample_args [sample_headers] None true None false)) = Raised IndexError.
Proof.
  apply (verbose_needs_a_row decimal_float "ksp-telemetry.py"
           (sample_args [sample_headers] None true None false) sample_headers).
  - left. reflexivity.
  - reflexivity.
  - reflexivity.
  - intros col Hcol. exact Hcol.
Defined.


Lemma angle_of_attack_trim_witness :
  let args := sample_args (sample_headers :: sample_lines) None true None false in
  Plot [3; 4]%float [0.5; 0.25]%float None ∈ fst (render args sample_table).
Proof.
  intros args.
  destruct (angle_of_attack_trim args sample_table
              [0; 1; 2; 3; 4]%float [0; 2.5; 1.5; 0.5; 0.25]%float 5)
    as ((before & after & Heq) & _).
  - reflexivity.
  - intros col Hcol. unfold basic_columns in Hcol.
    repeat (apply elem_of_cons in Hcol as [-> | Hcol]; [by eexists |]).
    by apply elem_of_nil in Hcol.
  - reflexivity.
  - reflexivity.
  - reflexivity.
  - reflexivity.
  - rewrite Heq. apply elem_of_app. right. in_list.
Defined.

Lemma delta_v_lost_series_witness :
  let args := sample_args (sample_headers :: sample_lines) None true None false in
  dv_lost sample_table 175 = Ok [0; 11; 20; 25; 27]%float.
Proof.
  intros args.
  destruct (delta_v_lost_series args sample_table
              [0; 1; 2; 3; 4]%float [0; 2.5; 1.5; 0.5; 0.25]%float
              [0; 12; 25; 40; 57]%float [175; 176; 180; 190; 205]%float 175%float)
    as (lost & Hlost & _).
  - reflexivity.
  - intros col Hcol. unfold basic_columns in Hcol.
    repeat (apply elem_of_cons in Hcol as [-> | Hcol]; [by eexists |]).
    by apply elem_of_nil in Hcol.
  - reflexivity.
  - reflexivity.
  - reflexivity.
  - reflexivity.
  - reflexivity.
  - reflexivity.
  - reflexivity.
Defined.

Lemma km_conversion_witness :
  let args := sample_args (sample_headers :: sample_lines) None false None false in
  Plot (to_km [0; 10; 45; 120; 250]%float) (to_km [80; 250; 600; 1100; 1800]%float) None
    ∈ fst (chart_launch_profile args sample_table) /\
  (80 / 1000 <=? 250 / 1000)%float = true.
Proof.
  intros args.
  destruct (km_conversion args sample_table
              [0; 10; 45; 120; 250]%float [80; 250; 600; 1100; 1800]%float
              [0; 110; 420; 900; 1500]%float)
    as (Hplot & _ & _ & _ & Hmono & _).
  - reflexivity.
  - reflexivity.
  - reflexivity.
  - split; [exact Hplot |]. apply Hmono. reflexivity.
Defined.

(** ** Further properties on sample files *)


Lemma load_table_shape_witness :
  exists c, sample_table !! "Q" = Some c /\ length c = 5.
Proof.
  destruct (load_table_shape decimal_float sample_headers sample_lines sample_table load_sample)
    as (Hkeys & Hlen & _).
  destruct (proj2 (Hkeys "Q") ltac:(in_list)) as [c Hc].
  exists c. split; [exact Hc | exact (Hlen "Q" c Hc)].
Defined.

Lemma load_surplus : load decimal_float [["A"]; ["1"; "2"]] = Ok {["A" := [1%float]]}.
Proof. vm_cast_no_check (eq_refl (Ok ({["A" := [1%float]]} : gmap string (list float)))). Qed.

Lemma load_ignores_surplus_cells_witness :
  load decimal_float [["A"]; ["1"]] = Ok {["A" := [1%float]]}.
Proof.
  exact (load_ignores_surplus_cells decimal_float ["A"] [["1"; "2"]] _ load_surplus).
Defined.


Lemma input_closed_after_load_witness :
  fst (main decimal_float "ksp-telemetry.py"
         (sample_args (sample_headers :: sample_lines) None true None false)) !! 2 =
  Some CloseIn.
Proof.
  apply (input_closed_after_load decimal_float "ksp-telemetry.py"
           (sample_args (sample_headers :: sample_lines) None true None false)).
  - left. reflexivity.
  - exists sample_table. exact load_sample.
Defined.

Lemma normal_mode_reads_basic_columns_witness :
  let args := sample_args (sample_headers :: sample_lines) None false None false in
  render args sample_table = render args (delete "AoA" sample_table).
Proof.
  intros args.
  apply (normal_mode_reads_basic_columns args sample_table (delete "AoA" sample_table)).
  - reflexivity.
  - intros col Hcol. unfold basic_columns in Hcol.
    repeat (apply elem_of_cons in Hcol as [-> | Hcol]; [reflexivity |]).
    by apply elem_of_nil in Hcol.
Defined.

Lemma title_is_set_once_witness :
  let args := sample_args (sample_headers :: sample_lines) (Some "Flight 1") false None false in
  fst (main decimal_float "ksp-telemetry.py" args) !! 4 = Some (Suptitle "Flight 1" 14).
Proof.
  intros args.
  destruct (title_is_set_once decimal_float "ksp-telemetry.py" args sample_table "Flight 1")
    as (rest & -> & _).
  - left. reflexivity.
  - exact load_sample.
  - reflexivity.
  - discriminate.
  - reflexivity.
Defined.


Lemma to_km_keeps_finite_witness :
  Forall (fun x => is_finite_sample x = true) (to_km [0; 10; 45; 120; 250]%float).
Proof.
  apply to_km_keeps_finite. repeat constructor.
Defined.


Lemma charts_in_order_witness :
  subplots_of
    (fst (main decimal_float "ksp-telemetry.py"
            (sample_args (sample_headers :: sample_lines) None true (Some "result.png") true))) =
  [1; 2; 3; 4; 5; 6]%Z.
Proof.
  apply (charts_in_order decimal_float "ksp-telemetry.py"
           (sample_args (sample_headers :: sample_lines) None true (Some "result.png") true)).
  vm_compute. reflexivity.
Defined.
